(** * Aurora Analyst: the [/api/analyze] route and the analysis engine

    A shallow embedding of [src/app/api/analyze/route.ts]: the sanitizers
    [sanitizeNumber], [normalizePeriods], [normalizeAssumptions] and the
    [POST] handler, over a model of the JavaScript values that
    [request.json()] can produce.  JavaScript numbers are IEEE 754 binary64
    values ([spec_float] at precision 53), strings are sequences of UTF-16
    code units. *)

From Stdlib Require Import ZArith NArith QArith Qround List Bool Ascii String Lia.
From Stdlib Require Import Floats.SpecFloat.
Import ListNotations.

Close Scope Q_scope.
Set Implicit Arguments.
Set Warnings "-register-all".

(** ** JavaScript numbers *)

Module JsNumber.

Definition prec : Z := 53.
Definition emax : Z := 1024.

Definition number : Type := spec_float.

Definition zero : number := S754_zero false.
Definition NaN : number := S754_nan.
Definition Infinity (negative : bool) : number := S754_infinity negative.

(** [Number.isFinite] on a value that already is a number. *)
Definition isFinite (x : number) : bool :=
  match x with
  | S754_zero _ | S754_finite _ _ _ => true
  | S754_infinity _ | S754_nan => false
  end.

(** The Number value of an integer (round to nearest, ties to even). *)
Definition ofZ (z : Z) : number := binary_normalize prec emax z 0 false.

(** The Number value of the decimal [m * 10^e], [m] a natural number:
    the exact rational is rounded once, to nearest with ties to even. *)
Definition ofDecimal (negative : bool) (m : N) (e : Z) : number :=
  match m with
  | N0 => S754_zero negative
  | Npos p =>
      match e with
      | Zneg k =>
          let '(q, e', l) :=
            SFdiv_core_binary prec emax (Zpos p) 0 (Z.pow_pos 10 k) 0 in
          binary_round_aux prec emax negative q e' l
      | _ => binary_round prec emax negative (Pos.mul p (Z.to_pos (10 ^ e))) 0
      end
  end.

End JsNumber.
Export JsNumber.

(** ** JavaScript strings *)

Module JsString.

Definition codeUnit : Type := N.
Definition jsString : Type := list codeUnit.

(** A string literal of the source, as code units. *)
Definition lit (s : string) : jsString :=
  List.map N_of_ascii (list_ascii_of_string s).

Fixpoint eqb (a b : jsString) : bool :=
  match a, b with
  | [], [] => true
  | x :: a', y :: b' => N.eqb x y && eqb a' b'
  | _, _ => false
  end.

(** WhiteSpace and LineTerminator code points of ECMAScript, the ones
    [String.prototype.trim] and [parseFloat] strip. *)
Definition isWhiteSpace (c : codeUnit) : bool :=
  (existsb (N.eqb c)
     [9; 10; 11; 12; 13; 32; 160; 5760; 8232; 8233; 8239; 8287; 12288; 65279]
   || ((8192 <=? c) && (c <=? 8202)))%N.

Fixpoint trimStart (s : jsString) : jsString :=
  match s with
  | [] => []
  | c :: r => if isWhiteSpace c then trimStart r else s
  end.

Definition trimEnd (s : jsString) : jsString := rev (trimStart (rev s)).

Definition trim (s : jsString) : jsString := trimEnd (trimStart s).

Fixpoint startsWith (p s : jsString) : bool :=
  match p, s with
  | [], _ => true
  | x :: p', y :: s' => N.eqb x y && startsWith p' s'
  | _ :: _, [] => false
  end.

End JsString.
Export JsString.

(** ** [parseFloat] *)

Module ParseFloat.

Definition isDigit (c : codeUnit) : bool := ((48 <=? c) && (c <=? 57))%N.

(** The longest run of decimal digits at the head, and what follows. *)
Fixpoint takeDigits (s : jsString) : list N * jsString :=
  match s with
  | [] => ([], [])
  | c :: r =>
      if isDigit c
      then let '(ds, rest) := takeDigits r in ((c - 48)%N :: ds, rest)
      else ([], s)
  end.

Definition digitsValue (ds : list N) : N :=
  fold_left (fun acc d => (10 * acc + d)%N) ds 0%N.

(** An optional sign: [+] is 43, [-] is 45. *)
Definition takeSign (s : jsString) : bool * jsString :=
  match s with
  | c :: r =>
      if N.eqb c 45 then (true, r)
      else if N.eqb c 43 then (false, r)
      else (false, s)
  | [] => (false, [])
  end.

(** ExponentPart: [e] or [E], an optional sign, at least one digit.  When
    the text does not continue with a whole ExponentPart the literal ends
    before it and the exponent is 0. *)
Definition exponentPart (s : jsString) : Z :=
  match s with
  | c :: r =>
      if N.eqb c 101 || N.eqb c 69 then
        let '(negative, r') := takeSign r in
        match fst (takeDigits r') with
        | [] => 0%Z
        | ds => let v := Z.of_N (digitsValue ds) in
                if negative then (- v)%Z else v
        end
      else 0%Z
  | [] => 0%Z
  end.

(** A [.] (46) and the digits after it, when the text continues so. *)
Definition fractionPart (s : jsString) : list N * jsString :=
  match s with
  | c :: r => if N.eqb c 46 then takeDigits r else ([], s)
  | [] => ([], [])
  end.

(** StrUnsignedDecimalLiteral, longest prefix: [Infinity], or digits with
    an optional fraction and exponent, at least one digit before the
    exponent. *)
Definition unsignedLiteral (negative : bool) (s : jsString) : number :=
  if startsWith (lit "Infinity") s then Infinity negative
  else
    let '(ip, r1) := takeDigits s in
    let '(fp, r2) := fractionPart r1 in
    match (ip ++ fp)%list with
    | [] => NaN
    | ds =>
        ofDecimal negative (digitsValue ds)
          (exponentPart r2 - Z.of_nat (List.length fp))
    end.

Definition parseFloat (s : jsString) : number :=
  let '(negative, u) := takeSign (trimStart s) in
  unsignedLiteral negative u.

End ParseFloat.
Export ParseFloat.

(** ** Values of a parsed JSON body *)

Module JsValue.

(** What [request.json()] yields, with [undefined] for a member that is
    not there.  An object is its own members in order; a member read finds
    the first entry of the key. *)
Inductive JsValue : Type :=
| JUndefined
| JNull
| JBool (b : bool)
| JNumber (n : number)
| JString (s : jsString)
| JArray (items : list JsValue)
| JObject (members : list (jsString * JsValue)).

Inductive TypeTag : Type :=
| TUndefined | TObject | TBoolean | TNumber | TString.

Definition typeof (v : JsValue) : TypeTag :=
  match v with
  | JUndefined => TUndefined
  | JNull | JArray _ | JObject _ => TObject
  | JBool _ => TBoolean
  | JNumber _ => TNumber
  | JString _ => TString
  end.

Definition isObjectType (v : JsValue) : bool :=
  match typeof v with TObject => true | _ => false end.

Definition isNull (v : JsValue) : bool :=
  match v with JNull => true | _ => false end.

(** [Array.isArray]. *)
Definition isArray (v : JsValue) : bool :=
  match v with JArray _ => true | _ => false end.

(** ToBoolean: [undefined], [null], [false], [0], [-0], [NaN] and the empty
    string are falsy. *)
Definition toBoolean (v : JsValue) : bool :=
  match v with
  | JUndefined | JNull => false
  | JBool b => b
  | JNumber (S754_zero _) | JNumber S754_nan => false
  | JNumber _ => true
  | JString [] => false
  | JString _ => true
  | JArray _ | JObject _ => true
  end.

Fixpoint lookup (key : jsString) (members : list (jsString * JsValue))
  : JsValue :=
  match members with
  | [] => JUndefined
  | (k, v) :: rest => if JsString.eqb k key then v else lookup key rest
  end.

(** [v.key] on a value that is neither [null] nor [undefined], for the
    member names the route reads ([periods], [assumptions], [label] and the
    numeric fields): none of them is an array index, [length] or a member
    of a built-in prototype, so only an object's own members answer. *)
Definition member (v : JsValue) (key : jsString) : JsValue :=
  match v with
  | JObject members => lookup key members
  | _ => JUndefined
  end.

End JsValue.
Export JsValue.

(** ** Types shared with the analysis library *)

Record FinancialPeriod (num : Type) : Type := {
  label : jsString;
  revenue : num;
  cogs : num;
  operatingExpenses : num;
  netIncome : num;
  assets : num;
  liabilities : num;
  cash : num;
  freeCashFlow : num
}.

Record ScenarioAssumptions (num : Type) : Type := {
  revenueGrowth : num;
  marginShift : num;
  efficiencyGain : num;
  cashConversion : num
}.

(** The numeric members of a period, by name. *)
Inductive PeriodField : Type :=
| Revenue | Cogs | OperatingExpenses | NetIncome
| Assets | Liabilities | Cash | FreeCashFlow.

Definition periodFieldName (f : PeriodField) : jsString :=
  lit match f with
      | Revenue => "revenue"
      | Cogs => "cogs"
      | OperatingExpenses => "operatingExpenses"
      | NetIncome => "netIncome"
      | Assets => "assets"
      | Liabilities => "liabilities"
      | Cash => "cash"
      | FreeCashFlow => "freeCashFlow"
      end.

Definition periodField {num : Type} (f : PeriodField) (p : FinancialPeriod num)
  : num :=
  match f with
  | Revenue => revenue p
  | Cogs => cogs p
  | OperatingExpenses => operatingExpenses p
  | NetIncome => netIncome p
  | Assets => assets p
  | Liabilities => liabilities p
  | Cash => cash p
  | FreeCashFlow => freeCashFlow p
  end.

Inductive AssumptionField : Type :=
| RevenueGrowth | MarginShift | EfficiencyGain | CashConversion.

Definition assumptionFieldName (f : AssumptionField) : jsString :=
  lit match f with
      | RevenueGrowth => "revenueGrowth"
      | MarginShift => "marginShift"
      | EfficiencyGain => "efficiencyGain"
      | CashConversion => "cashConversion"
      end.

Definition assumptionField {num : Type} (f : AssumptionField)
  (a : ScenarioAssumptions num) : num :=
  match f with
  | RevenueGrowth => revenueGrowth a
  | MarginShift => marginShift a
  | EfficiencyGain => efficiencyGain a
  | CashConversion => cashConversion a
  end.

(** ** The sanitizers of [route.ts] *)

Definition sanitizeNumber (value : JsValue) : number :=
  match value with
  | JNumber n => if isFinite n then n else zero
  | JString s =>
      let parsed := parseFloat s in
      if isFinite parsed then parsed else zero
  | _ => zero
  end.

(** What the sanitizer keeps: a finite number, or a string from which
    [parseFloat] reads a finite number. *)
Definition acceptedNumber (value : JsValue) : bool :=
  match value with
  | JNumber n => isFinite n
  | JString s => isFinite (parseFloat s)
  | _ => false
  end.

(** A row that passes the guard of the [raw.map] callback: of type
    ["object"] and not [null]. *)
Definition isRowObject (row : JsValue) : bool :=
  negb (negb (isObjectType row) || isNull row).

(** The object literal the callback returns for such a row. *)
Definition periodOfRow (row : JsValue) : FinancialPeriod number :=
  let label := member row (lit "label") in
  {| label :=
       match label with
       | JString s =>
           if (0 <? List.length (trim s))%nat then s else lit "Period"
       | _ => lit "Period"
       end;
     revenue := sanitizeNumber (member row (lit "revenue"));
     cogs := sanitizeNumber (member row (lit "cogs"));
     operatingExpenses := sanitizeNumber (member row (lit "operatingExpenses"));
     netIncome := sanitizeNumber (member row (lit "netIncome"));
     assets := sanitizeNumber (member row (lit "assets"));
     liabilities := sanitizeNumber (member row (lit "liabilities"));
     cash := sanitizeNumber (member row (lit "cash"));
     freeCashFlow := sanitizeNumber (member row (lit "freeCashFlow")) |}.

(** The callback of [raw.map]: [None] is the [null] it returns for a row
    that is not an object. *)
Definition normalizeRow (row : JsValue) : option (FinancialPeriod number) :=
  if negb (isObjectType row) || isNull row then None
  else Some (periodOfRow row).

(** [.filter(Boolean)] over the mapped rows: a period object is truthy,
    [null] is not. *)
Fixpoint filterBoolean {A : Type} (l : list (option A)) : list A :=
  match l with
  | [] => []
  | Some x :: r => x :: filterBoolean r
  | None :: r => filterBoolean r
  end.

Definition normalizePeriods (raw : JsValue) : list (FinancialPeriod number) :=
  match raw with
  | JArray rows => filterBoolean (List.map normalizeRow rows)
  | _ => []
  end.

Definition normalizeAssumptions (raw : JsValue) : ScenarioAssumptions number :=
  if negb (toBoolean raw) || negb (isObjectType raw) then
    {| revenueGrowth := zero;
       marginShift := zero;
       efficiencyGain := zero;
       cashConversion := zero |}
  else
    {| revenueGrowth := sanitizeNumber (member raw (lit "revenueGrowth"));
       marginShift := sanitizeNumber (member raw (lit "marginShift"));
       efficiencyGain := sanitizeNumber (member raw (lit "efficiencyGain"));
       cashConversion := sanitizeNumber (member raw (lit "cashConversion")) |}.

(** ** The [POST] handler *)

Module Handler.

(** What a [catch] clause can receive here: [request.json()] rejecting, a
    member read on [null], or whatever the analysis library throws. *)
Inductive Exn : Type :=
| BodyRejected (detail : string)
| TypeError (detail : string)
| EngineFailure (detail : string).

Inductive Outcome (A : Type) : Type :=
| Returned (a : A)
| Threw (e : Exn).
Arguments Returned {A} a.
Arguments Threw {A} e.

(** What the handler does besides answering: calls into the analysis
    library and lines written with [console.error], oldest first. *)
Record World : Type := {
  engineCalls :
    list (list (FinancialPeriod number) * ScenarioAssumptions number);
  consoleErrors : list (string * Exn)
}.

Definition M (A : Type) : Type := World -> Outcome A * World.

Definition ret {A : Type} (a : A) : M A := fun w => (Returned a, w).

Definition throw {A : Type} (e : Exn) : M A := fun w => (Threw e, w).

Definition bind {A B : Type} (m : M A) (k : A -> M B) : M B :=
  fun w =>
    match m w with
    | (Returned a, w') => k a w'
    | (Threw e, w') => (Threw e, w')
    end.

Definition tryCatch {A : Type} (block : M A) (handler : Exn -> M A) : M A :=
  fun w =>
    match block w with
    | (Returned a, w') => (Returned a, w')
    | (Threw e, w') => handler e w'
    end.

Declare Scope handler_scope.
Delimit Scope handler_scope with handler.
Notation "x <- m ;; k" := (bind m (fun x => k))
  (at level 61, m at next level, right associativity) : handler_scope.
Notation "m ;;; k" := (bind m (fun _ => k))
  (at level 61, right associativity) : handler_scope.

(** The request, as far as the handler looks at it: what awaiting
    [request.json()] gives. *)
Record Request : Type := { json : Outcome JsValue }.

Inductive ResponseBody (D : Type) : Type :=
| ErrorBody (error : string)
| DataBody (data : D).
Arguments ErrorBody {D} error.
Arguments DataBody {D} data.

Record Response (D : Type) : Type := {
  status : nat;
  body : ResponseBody D
}.

(** [NextResponse.json(body, init)]: status 200 unless [init] sets one. *)
Definition NextResponse_json {D : Type} (b : ResponseBody D)
  (init : option nat) : Response D :=
  {| status := match init with Some s => s | None => 200 end; body := b |}.

Definition awaitJson (request : Request) : M JsValue :=
  fun w => (json request, w).

(** [body.key]: a TypeError on [null] and [undefined]. *)
Definition readMember (v : JsValue) (key : string) : M JsValue :=
  match v with
  | JNull | JUndefined => throw (TypeError key)
  | _ => ret (member v (lit key))
  end.

Definition console_error (message : string) (e : Exn) : M unit :=
  fun w =>
    (Returned tt,
     {| engineCalls := engineCalls w;
        consoleErrors := consoleErrors w ++ [(message, e)] |}).

Section Route.

(** [runAnalysis] of ["@/lib/analysis"]: the route passes its result on
    without looking inside. *)
Variable AnalysisResult : Type.
Variable runAnalysis :
  list (FinancialPeriod number) -> ScenarioAssumptions number ->
  Outcome AnalysisResult.

Definition callRunAnalysis (periods : list (FinancialPeriod number))
  (assumptions : ScenarioAssumptions number) : M AnalysisResult :=
  fun w =>
    (runAnalysis periods assumptions,
     {| engineCalls := engineCalls w ++ [(periods, assumptions)];
        consoleErrors := consoleErrors w |}).

Local Open Scope handler_scope.

(** The [try] block. *)
Definition POST_try (request : Request) : M (Response AnalysisResult) :=
  body <- awaitJson request ;;
  rawPeriods <- readMember body "periods" ;;
  let periods := normalizePeriods rawPeriods in
  rawAssumptions <- readMember body "assumptions" ;;
  let assumptions := normalizeAssumptions rawAssumptions in
  if (List.length periods =? 0)%nat then
    ret (NextResponse_json
           (ErrorBody "No financial periods supplied.") (Some 400))
  else
    analysis <- callRunAnalysis periods assumptions ;;
    ret (NextResponse_json (DataBody analysis) None).

Definition POST (request : Request) : M (Response AnalysisResult) :=
  tryCatch (POST_try request)
    (fun error =>
       console_error "Analysis error" error ;;;
       ret (NextResponse_json
              (ErrorBody "Unable to evaluate financials.") (Some 500))).

End Route.

End Handler.

(** ** The analysis engine

    [runAnalysis] lives in [@/lib/analysis], which is not among the sources;
    the route only imports it.  The engine below follows sections 3 and 4 of
    the specification, over the rationals (the specification's "finite real
    numbers"), with the fractional power of the growth rate and the fixed
    wording of signals, narrative and catalog left as variables. *)

Module Engine.

Local Open Scope Q_scope.

Definition Qltb (x y : Q) : bool := negb (Qle_bool y x).

Definition maxQ (x y : Q) : Q := if Qle_bool x y then y else x.

Definition clamp (lo hi x : Q) : Q :=
  if Qle_bool x lo then lo else if Qle_bool hi x then hi else x.

(** Nearest integer, halves upwards. *)
Definition roundQ (x : Q) : Q := inject_Z (Qfloor (x + (1 # 2))).

Definition sumQ (l : list Q) : Q := fold_right Qplus 0 l.

Definition averageQ (l : list Q) : Q :=
  match l with
  | [] => 0
  | _ => sumQ l / inject_Z (Z.of_nat (List.length l))
  end.

Record TrailingMetrics : Type := {
  cagr : Q;
  netMargin : Q;
  burnMultiple : Q;
  leverageRatio : Q;
  liquidityRatio : Q;
  growthVelocity : Q
}.

Record ScenarioYear : Type := {
  year : nat;
  scenarioRevenue : Q;
  scenarioNetIncome : Q;
  scenarioFreeCashFlow : Q
}.

Record HealthScores : Type := {
  overall : Q;
  growth : Q;
  profitability : Q;
  liquidity : Q;
  efficiency : Q
}.

Inductive Category : Type :=
| Growth | Profitability | Liquidity | Efficiency.

Inductive RiskRule : Type :=
| NegativeProfitability | OverLeverage | ShortRunway
| InefficientSpend | WorseningCash.

Inductive Tier : Type := Weak | Steady | Strong.

Record Recommendation : Type := {
  title : string;
  highlight : string;
  bullets : list string
}.

Record AnalysisResult : Type := {
  metrics : TrailingMetrics;
  scenario : list ScenarioYear;
  healthScores : HealthScores;
  riskSignals : list string;
  narrative : string;
  recommendations : list Recommendation
}.

(** The last two elements of a sequence, older first. *)
Fixpoint lastTwo {A : Type} (l : list A) : option (A * A) :=
  match l with
  | [] | [_] => None
  | [a; b] => Some (a, b)
  | _ :: r => lastTwo r
  end.

(** Consecutive pairs of a sequence. *)
Fixpoint pairs {A : Type} (l : list A) : list (A * A) :=
  match l with
  | a :: ((b :: _) as r) => (a, b) :: pairs r
  | _ => []
  end.

Section Pipeline.

(** Modelled from the spec: the fractional power [b^x] of section 4.1,
    which has no value in the rationals in general. *)
Variable power : Q -> Q -> Q.
(** Modelled from the spec: the "fixed-wording signal string" of each
    rule of section 4.4; the wording is not given. *)
Variable signalWording : RiskRule -> string.
(** Modelled from the spec: the narrative template of section 4.5, keyed
    by the tier of the overall score. *)
Variable narrativeTemplate : Tier -> TrailingMetrics -> string.
(** Modelled from the spec: the "predefined catalog" of section 4.5. *)
Variable catalog : Category -> Recommendation.

(** Modelled from the spec: section 4.1, Metrics Calculator, on the
    sequence [first :: rest]. *)
Definition computeMetrics (first : FinancialPeriod Q)
  (rest : list (FinancialPeriod Q)) : TrailingMetrics :=
  let periods := first :: rest in
  let final := List.last rest first in
  let n := List.length periods in
  let margins :=
    List.map (fun p => netIncome p / revenue p)
      (List.filter (fun p => negb (Qeq_bool (revenue p) 0)) periods) in
  let totalBurn :=
    sumQ (List.map (fun p => maxQ 0 (- freeCashFlow p)) periods) in
  let totalNewRevenue := maxQ 1 (revenue final - revenue first) in
  let monthlyOpex :=
    averageQ (List.map (fun p => operatingExpenses p) periods) / 12 in
  let steps := pairs periods in
  {| cagr :=
       if (2 <=? n)%nat && Qltb 0 (revenue first) && Qltb 0 (revenue final)
       then power (revenue final / revenue first)
              (1 / inject_Z (Z.of_nat (n - 1))) - 1
       else 0;
     netMargin := averageQ margins;
     burnMultiple := clamp 0 50 (totalBurn / totalNewRevenue);
     leverageRatio :=
       if Qltb 0 (assets final)
       then clamp 0 5 (liabilities final / assets final)
       else 0;
     liquidityRatio := clamp 0 60 (cash final / maxQ 1 monthlyOpex);
     growthVelocity :=
       if existsb (fun ab => Qeq_bool (revenue (fst ab)) 0) steps then 0
       else
         averageQ
           (List.map
              (fun ab =>
                 (revenue (snd ab) - revenue (fst ab)) / revenue (fst ab))
              steps) |}.

(** Modelled from the spec: the compounding of section 4.2, [horizon]
    years on from [previous]. *)
Fixpoint projectYears (horizon : nat) (index : nat) (previous : Q)
  (rate margin fcfRatio : Q) : list ScenarioYear :=
  match horizon with
  | O => []
  | S h =>
      let r := previous * (1 + rate) in
      {| year := index;
         scenarioRevenue := r;
         scenarioNetIncome := r * margin;
         scenarioFreeCashFlow := r * fcfRatio |}
      :: projectYears h (S index) r rate margin fcfRatio
  end.

(** Modelled from the spec: section 4.2, Scenario Projector. *)
Definition projectScenario (final : FinancialPeriod Q)
  (m : TrailingMetrics) (a : ScenarioAssumptions Q) : list ScenarioYear :=
  let rate := growthVelocity m + revenueGrowth a / 100 in
  let margin := clamp (-1) 1 (netMargin m + marginShift a / 100) in
  let base :=
    if Qeq_bool (revenue final) 0 then 0
    else freeCashFlow final / revenue final in
  let fcfRatio :=
    clamp (-1) 1 (base + (efficiencyGain a + cashConversion a) / 100) in
  projectYears 3 1 (revenue final) rate margin fcfRatio.

(** Modelled from the spec: the piecewise-linear mapping of section 4.3,
    0 at [bad], 100 at [good], an integer, clamped to [0,100]. *)
Definition linearScore (bad good x : Q) : Q :=
  clamp 0 100 (roundQ (100 * (x - bad) / (good - bad))).

(** Modelled from the spec: section 4.3, Health Scorer. *)
Definition scoreHealth (m : TrailingMetrics) : HealthScores :=
  let g := linearScore (- (1 # 10)) (4 # 10) (cagr m) in
  let p := linearScore (- (2 # 10)) (25 # 100) (netMargin m) in
  let l := linearScore 1 18 (liquidityRatio m) in
  let e := linearScore 4 (1 # 2) (burnMultiple m) in
  {| overall :=
       clamp 0 100
         (roundQ ((3 # 10) * g + (3 # 10) * p + (2 # 10) * l + (2 # 10) * e));
     growth := g;
     profitability := p;
     liquidity := l;
     efficiency := e |}.

(** Modelled from the spec: the predicate of each rule of section 4.4. *)
Definition ruleFires (periods : list (FinancialPeriod Q))
  (m : TrailingMetrics) (r : RiskRule) : bool :=
  match r with
  | NegativeProfitability => Qltb (netMargin m) 0
  | OverLeverage => Qltb (7 # 10) (leverageRatio m)
  | ShortRunway => Qltb (liquidityRatio m) 3
  | InefficientSpend => Qltb 2 (burnMultiple m)
  | WorseningCash =>
      match lastTwo periods with
      | Some (a, b) =>
          Qltb (freeCashFlow a) 0 && Qltb (freeCashFlow b) 0
          && Qltb (freeCashFlow b) (freeCashFlow a)
      | None => false
      end
  end.

Definition ruleSet : list RiskRule :=
  [NegativeProfitability; OverLeverage; ShortRunway;
   InefficientSpend; WorseningCash].

(** Modelled from the spec: section 4.4, Risk Signal Detector; each rule
    appends its signal in evaluation order. *)
Definition detectRisks (periods : list (FinancialPeriod Q))
  (m : TrailingMetrics) : list string :=
  List.map signalWording (List.filter (ruleFires periods m) ruleSet).

Definition categoryScore (h : HealthScores) (c : Category) : Q :=
  match c with
  | Growth => growth h
  | Profitability => profitability h
  | Liquidity => liquidity h
  | Efficiency => efficiency h
  end.

(** Stable insertion by score: on a tie the category already placed,
    earlier in catalog order, stays in front. *)
Fixpoint insertByScore (h : HealthScores) (c : Category)
  (sorted : list Category) : list Category :=
  match sorted with
  | [] => [c]
  | d :: r =>
      if Qltb (categoryScore h c) (categoryScore h d)
      then c :: sorted
      else d :: insertByScore h c r
  end.

Definition rankCategories (h : HealthScores) : list Category :=
  fold_left (fun acc c => insertByScore h c acc)
    [Growth; Profitability; Liquidity; Efficiency] [].

Definition tierOf (score : Q) : Tier :=
  if Qltb score 40 then Weak
  else if Qltb 70 score then Strong
  else Steady.

(** Modelled from the spec: section 4.5, the recommendation sections of
    the three lowest-scoring categories. *)
Definition recommend (h : HealthScores) : list Recommendation :=
  List.map catalog (firstn 3 (rankCategories h)).

(** Modelled from the spec: the pipeline of section 2 over a non-empty
    sequence; [None] for the empty sequence the caller must not pass. *)
Definition runAnalysis (periods : list (FinancialPeriod Q))
  (assumptions : ScenarioAssumptions Q) : option AnalysisResult :=
  match periods with
  | [] => None
  | first :: rest =>
      let m := computeMetrics first rest in
      let h := scoreHealth m in
      Some {| metrics := m;
              scenario :=
                projectScenario (List.last rest first) m assumptions;
              healthScores := h;
              riskSignals := detectRisks periods m;
              narrative := narrativeTemplate (tierOf (overall h)) m;
              recommendations := recommend h |}
  end.

End Pipeline.

End Engine.

(** ** [Number(text)] *)

Module StringToNumber.

(** ExponentPart again, with the text left after it: nothing is consumed
    when the text does not continue with a whole ExponentPart. *)
Definition exponentSplit (s : jsString) : Z * jsString :=
  match s with
  | c :: r =>
      if N.eqb c 101 || N.eqb c 69 then
        let '(negative, r') := takeSign r in
        match takeDigits r' with
        | ([], _) => (0%Z, s)
        | (ds, rest) =>
            let v := Z.of_N (digitsValue ds) in
            ((if negative then (- v)%Z else v), rest)
        end
      else (0%Z, s)
  | [] => (0%Z, [])
  end.

(** The longest StrUnsignedDecimalLiteral at the head with its value, and
    the text after it. *)
Definition literalSplit (negative : bool) (s : jsString)
  : option (number * jsString) :=
  if startsWith (lit "Infinity") s then Some (Infinity negative, skipn 8 s)
  else
    let '(ip, r1) := takeDigits s in
    let '(fp, r2) := fractionPart r1 in
    match (ip ++ fp)%list with
    | [] => None
    | ds =>
        let '(e, r3) := exponentSplit r2 in
        Some (ofDecimal negative (digitsValue ds)
                (e - Z.of_nat (List.length fp)), r3)
    end.

(** A digit of a binary, octal or hexadecimal literal. *)
Definition radixDigit (radix : N) (c : codeUnit) : option N :=
  let v :=
    if isDigit c then Some (c - 48)%N
    else if ((97 <=? c) && (c <=? 102))%N then Some (c - 87)%N
    else if ((65 <=? c) && (c <=? 70))%N then Some (c - 55)%N
    else None in
  match v with
  | Some d => if (d <? radix)%N then Some d else None
  | None => None
  end.

Fixpoint radixValue (radix acc : N) (s : jsString) : option N :=
  match s with
  | [] => Some acc
  | c :: r =>
      match radixDigit radix c with
      | Some d => radixValue radix (radix * acc + d)%N r
      | None => None
      end
  end.

(** NonDecimalIntegerLiteral: [0b], [0o] or [0x] in either case, then at
    least one digit of the radix and nothing else. *)
Definition nonDecimalLiteral (s : jsString) : option N :=
  match s with
  | z :: p :: ((_ :: _) as ds) =>
      if N.eqb z 48 then
        if N.eqb p 98 || N.eqb p 66 then radixValue 2 0 ds
        else if N.eqb p 111 || N.eqb p 79 then radixValue 8 0 ds
        else if N.eqb p 120 || N.eqb p 88 then radixValue 16 0 ds
        else None
      else None
  | _ => None
  end.

(** A text at which a run of digits ends as a literal: empty, or starting
    with something that is no digit, no [.] and no exponent letter. *)
Definition endsLiteral (s : jsString) : bool :=
  match s with
  | [] => true
  | c :: _ => negb (isDigit c || N.eqb c 46 || N.eqb c 101 || N.eqb c 69)
  end.

(** StringToNumber: white space is trimmed at both ends, the empty text is
    [0], and the rest must be one numeric literal as a whole. *)
Definition toNumber (s : jsString) : number :=
  match trim s with
  | [] => zero
  | t =>
      match nonDecimalLiteral t with
      | Some v => ofZ (Z.of_N v)
      | None =>
          let '(negative, u) := takeSign t in
          match literalSplit negative u with
          | Some (n, []) => n
          | _ => NaN
          end
      end
  end.

End StringToNumber.
Export StringToNumber.

(** ** The analyzer page: state, reducers and the request it sends *)

Module Client.

Record AnalyzerState : Type := {
  data : list (FinancialPeriod number);
  assumptions : ScenarioAssumptions number
}.

Definition emptyPeriod : FinancialPeriod number :=
  {| label := [];
     revenue := zero;
     cogs := zero;
     operatingExpenses := zero;
     netIncome := zero;
     assets := zero;
     liabilities := zero;
     cash := zero;
     freeCashFlow := zero |}.

(** [value.replace(/[^\d.-]/g, "")]: only decimal digits, [.] and [-] stay. *)
Definition keptInCell (c : codeUnit) : bool :=
  isDigit c || N.eqb c 46 || N.eqb c 45.

Definition stripCell (value : jsString) : jsString :=
  List.filter keptInCell value.

(** The number [updatePeriod] stores for the text of a cell. *)
Definition cellNumber (value : jsString) : number :=
  let parsed := toNumber (stripCell value) in
  if isFinite parsed then parsed else zero.

Definition periodFieldEqb (a b : PeriodField) : bool :=
  match a, b with
  | Revenue, Revenue | Cogs, Cogs | OperatingExpenses, OperatingExpenses
  | NetIncome, NetIncome | Assets, Assets | Liabilities, Liabilities
  | Cash, Cash | FreeCashFlow, FreeCashFlow => true
  | _, _ => false
  end.

(** [{ ...period, [key]: v }] for one of the numeric keys, the only keys the
    table passes. *)
Definition withPeriodField (key : PeriodField) (v : number)
  (period : FinancialPeriod number) : FinancialPeriod number :=
  let pick k := if periodFieldEqb k key then v else periodField k period in
  {| label := label period;
     revenue := pick Revenue;
     cogs := pick Cogs;
     operatingExpenses := pick OperatingExpenses;
     netIncome := pick NetIncome;
     assets := pick Assets;
     liabilities := pick Liabilities;
     cash := pick Cash;
     freeCashFlow := pick FreeCashFlow |}.

(** [{ ...period, label: value }]. *)
Definition withLabel (value : jsString) (period : FinancialPeriod number)
  : FinancialPeriod number :=
  {| label := value;
     revenue := revenue period;
     cogs := cogs period;
     operatingExpenses := operatingExpenses period;
     netIncome := netIncome period;
     assets := assets period;
     liabilities := liabilities period;
     cash := cash period;
     freeCashFlow := freeCashFlow period |}.

Definition assumptionFieldEqb (a b : AssumptionField) : bool :=
  match a, b with
  | RevenueGrowth, RevenueGrowth | MarginShift, MarginShift
  | EfficiencyGain, EfficiencyGain | CashConversion, CashConversion => true
  | _, _ => false
  end.

(** [{ ...assumptions, [key]: value }]. *)
Definition withAssumption (key : AssumptionField) (v : number)
  (a : ScenarioAssumptions number) : ScenarioAssumptions number :=
  let pick k := if assumptionFieldEqb k key then v else assumptionField k a in
  {| revenueGrowth := pick RevenueGrowth;
     marginShift := pick MarginShift;
     efficiencyGain := pick EfficiencyGain;
     cashConversion := pick CashConversion |}.

(** [updated[index] = x] on the copy of the array, for an index inside it. *)
Fixpoint replaceAt {A : Type} (index : nat) (x : A) (l : list A) : list A :=
  match l, index with
  | [], _ => []
  | _ :: r, O => x :: r
  | y :: r, S i => y :: replaceAt i x r
  end.

(** The next state of [updatePeriod], for the index of a row of the table.
    Past the end the array would grow by an object that is no
    [FinancialPeriod]; the table never passes such an index and the typed
    state has no next state there. *)
Definition updatePeriod (index : nat) (key : PeriodField) (value : jsString)
  (prev : AnalyzerState) : option AnalyzerState :=
  match nth_error (data prev) index with
  | Some period =>
      Some {| data :=
                replaceAt index (withPeriodField key (cellNumber value) period)
                  (data prev);
              assumptions := assumptions prev |}
  | None => None
  end.

(** The next state of [updateLabel], likewise. *)
Definition updateLabel (index : nat) (value : jsString)
  (prev : AnalyzerState) : option AnalyzerState :=
  match nth_error (data prev) index with
  | Some period =>
      Some {| data := replaceAt index (withLabel value period) (data prev);
              assumptions := assumptions prev |}
  | None => None
  end.

(** The next state of [updateAssumption]. *)
Definition updateAssumption (key : AssumptionField) (value : number)
  (prev : AnalyzerState) : AnalyzerState :=
  {| data := data prev;
     assumptions := withAssumption key value (assumptions prev) |}.

(** The next state of [addPeriod]. *)
Definition addPeriod (prev : AnalyzerState) : AnalyzerState :=
  {| data := (data prev ++ [emptyPeriod])%list;
     assumptions := assumptions prev |}.

Record SeriesPoint : Type := {
  pointLabel : jsString;
  pointRevenue : number;
  pointNetIncome : number;
  pointFreeCashFlow : number
}.

(** [revenueSeries]: [period.label || "Period"] takes the placeholder for
    the empty label only. *)
Definition revenueSeries (state : AnalyzerState) : list SeriesPoint :=
  List.map
    (fun period =>
       {| pointLabel :=
            match label period with [] => lit "Period" | l => l end;
          pointRevenue := revenue period;
          pointNetIncome := netIncome period;
          pointFreeCashFlow := freeCashFlow period |})
    (data state).

(** What [JSON.parse] reads back from [JSON.stringify] of a number: [null]
    for [NaN] and the infinities, [0] for both zeros, the number itself
    otherwise. *)
Definition jsonNumber (n : number) : JsValue :=
  match n with
  | S754_zero _ => JNumber zero
  | S754_finite _ _ _ => JNumber n
  | S754_infinity _ | S754_nan => JNull
  end.

Definition jsonPeriod (p : FinancialPeriod number) : JsValue :=
  JObject
    [ (lit "label", JString (label p));
      (lit "revenue", jsonNumber (revenue p));
      (lit "cogs", jsonNumber (cogs p));
      (lit "operatingExpenses", jsonNumber (operatingExpenses p));
      (lit "netIncome", jsonNumber (netIncome p));
      (lit "assets", jsonNumber (assets p));
      (lit "liabilities", jsonNumber (liabilities p));
      (lit "cash", jsonNumber (cash p));
      (lit "freeCashFlow", jsonNumber (freeCashFlow p)) ].

Definition jsonAssumptions (a : ScenarioAssumptions number) : JsValue :=
  JObject
    [ (lit "revenueGrowth", jsonNumber (revenueGrowth a));
      (lit "marginShift", jsonNumber (marginShift a));
      (lit "efficiencyGain", jsonNumber (efficiencyGain a));
      (lit "cashConversion", jsonNumber (cashConversion a)) ].

(** The body of the request of [fetchAnalysis] as the route parses it:
    [JSON.stringify({ periods: state.data, assumptions: state.assumptions })]
    read back. *)
Definition requestBody (state : AnalyzerState) : JsValue :=
  JObject
    [ (lit "periods", JArray (List.map jsonPeriod (data state)));
      (lit "assumptions", jsonAssumptions (assumptions state)) ].

(** How an [await] in [fetchAnalysis] ends. *)
Inductive Failure : Type :=
| FetchRejected (detail : string)
| ErrorThrown (message : string).

Inductive Settled (A : Type) : Type :=
| Fulfilled (a : A)
| Rejected (f : Failure).
Arguments Fulfilled {A} a.
Arguments Rejected {A} f.

(** [response.ok]: a status from 200 to 299. *)
Definition responseOk {D : Type} (response : Handler.Response D) : bool :=
  (200 <=? Handler.status response)%nat && (Handler.status response <=? 299)%nat.

(** [fetchAnalysis] against whatever answers the request; [None] is the
    [undefined] that [payload.data] reads from a body without [data]. *)
Definition fetchAnalysis {D : Type}
  (fetch : JsValue -> Settled (Handler.Response D)) (state : AnalyzerState)
  : Settled (option D) :=
  match fetch (requestBody state) with
  | Rejected f => Rejected f
  | Fulfilled response =>
      if negb (responseOk response) then
        Rejected
          (ErrorThrown
             match Handler.body response with
             | Handler.ErrorBody message => message
             | Handler.DataBody _ => "Unable to analyze dataset."%string
             end)
      else
        match Handler.body response with
        | Handler.DataBody d => Fulfilled (Some d)
        | Handler.ErrorBody _ => Fulfilled None
        end
  end.

(** The route of this repository behind [fetch]. *)
Definition routeFetch {D : Type}
  (runAnalysis :
     list (FinancialPeriod number) -> ScenarioAssumptions number ->
     Handler.Outcome D)
  (w : Handler.World) (body : JsValue) : Settled (Handler.Response D) :=
  match
    fst (Handler.POST runAnalysis {| Handler.json := Handler.Returned body |} w)
  with
  | Handler.Returned response => Fulfilled response
  | Handler.Threw _ => Rejected (FetchRejected "handler threw")
  end.

(** How the route reads a number the page holds: [0] unless finite, and
    the positive zero for both zeros. *)
Definition numberAsServed (n : number) : number :=
  match n with
  | S754_finite _ _ _ => n
  | _ => zero
  end.

(** How the route reads a period the page holds. *)
Definition periodAsServed (p : FinancialPeriod number)
  : FinancialPeriod number :=
  {| label := if forallb isWhiteSpace (label p) then lit "Period" else label p;
     revenue := numberAsServed (revenue p);
     cogs := numberAsServed (cogs p);
     operatingExpenses := numberAsServed (operatingExpenses p);
     netIncome := numberAsServed (netIncome p);
     assets := numberAsServed (assets p);
     liabilities := numberAsServed (liabilities p);
     cash := numberAsServed (cash p);
     freeCashFlow := numberAsServed (freeCashFlow p) |}.

Definition assumptionsAsServed (a : ScenarioAssumptions number)
  : ScenarioAssumptions number :=
  {| revenueGrowth := numberAsServed (revenueGrowth a);
     marginShift := numberAsServed (marginShift a);
     efficiencyGain := numberAsServed (efficiencyGain a);
     cashConversion := numberAsServed (cashConversion a) |}.

(** The period the route makes of a row without any of the members. *)
Definition placeholderPeriod : FinancialPeriod number :=
  withLabel (lit "Period") emptyPeriod.

(** A row that is an array, or an object without members. *)
Definition memberless (row : JsValue) : bool :=
  match row with
  | JArray _ | JObject [] => true
  | _ => false
  end.

(** A period with a label that is not blank and finite fields without a
    negative zero: what the route leaves as it is. *)
Definition plainNumber (n : number) : bool :=
  match n with
  | S754_finite _ _ _ | S754_zero false => true
  | _ => false
  end.

Definition plainPeriod (p : FinancialPeriod number) : bool :=
  negb (forallb isWhiteSpace (label p))
  && forallb (fun f => plainNumber (periodField f p))
       [Revenue; Cogs; OperatingExpenses; NetIncome;
        Assets; Liabilities; Cash; FreeCashFlow].

(** Every numeric field of every period of a state is finite. *)
Definition finiteFields (state : AnalyzerState) : bool :=
  forallb
    (fun p =>
       forallb (fun f => isFinite (periodField f p))
         [Revenue; Cogs; OperatingExpenses; NetIncome;
          Assets; Liabilities; Cash; FreeCashFlow])
    (data state).

End Client.

(** ** Sample payloads *)

Module Samples.

(** A row with a string-encoded revenue, an infinite [cogs] (what
    [JSON.parse] makes of [1e999]), a boolean [cash] and a blank
    [netIncome]; the other fields are absent. *)
Definition row2024 : JsValue :=
  JObject
    [ (lit "label", JString (lit "FY2024"));
      (lit "revenue", JString (lit "150"));
      (lit "cogs", JNumber (Infinity false));
      (lit "cash", JBool true);
      (lit "netIncome", JString (lit "n/a"));
      (lit "assets", JNumber (ofZ 40)) ].

(** A row whose label is blank: a space, a tab and a no-break space. *)
Definition rowBlankLabel : JsValue :=
  JObject [ (lit "label", JString [32; 9; 160]%N);
            (lit "revenue", JString (lit "12abc")) ].

Definition rawPeriods : JsValue :=
  JArray [JNull; row2024; JNumber (ofZ 7); rowBlankLabel; JString (lit "x")].

Definition rawAssumptions : JsValue :=
  JObject [ (lit "revenueGrowth", JNumber (ofZ 5));
            (lit "marginShift", JString (lit "-2.5"));
            (lit "efficiencyGain", JNull) ].

(** Entries that are all dropped. *)
Definition rowsOfPrimitives : list JsValue :=
  [JNull; JNumber (ofZ 3); JString (lit "FY2023"); JBool true].

Definition requestWithPeriods : Handler.Request :=
  {| Handler.json :=
       Handler.Returned
         (JObject [ (lit "periods", rawPeriods);
                    (lit "assumptions", rawAssumptions) ]) |}.

Definition requestOfPrimitives : Handler.Request :=
  {| Handler.json :=
       Handler.Returned (JObject [ (lit "periods", JArray rowsOfPrimitives) ])
  |}.

Definition requestNull : Handler.Request :=
  {| Handler.json := Handler.Returned JNull |}.

Definition requestMalformed : Handler.Request :=
  {| Handler.json := Handler.Threw (Handler.BodyRejected "Unexpected token") |}.

Definition quietWorld : Handler.World :=
  {| Handler.engineCalls := []; Handler.consoleErrors := [] |}.

(** Two stand-ins for the analysis library: one that answers with the number
    of periods, one that throws. *)
Definition countingEngine (periods : list (FinancialPeriod number))
  (assumptions : ScenarioAssumptions number) : Handler.Outcome nat :=
  Handler.Returned (List.length periods).

Definition failingEngine (periods : list (FinancialPeriod number))
  (assumptions : ScenarioAssumptions number) : Handler.Outcome nat :=
  Handler.Threw (Handler.EngineFailure "division by zero in scorer").

(** The two-period example of section 8 of the specification, with the
    power taken at exponent 1. *)
Definition historyQ : list (FinancialPeriod Q) :=
  [ {| label := lit "FY2023"; revenue := 100; cogs := 40;
       operatingExpenses := 36; netIncome := 10; assets := 200;
       liabilities := 60; cash := 36; freeCashFlow := - (5) |};
    {| label := lit "FY2024"; revenue := 150; cogs := 60;
       operatingExpenses := 48; netIncome := 20; assets := 260;
       liabilities := 78; cash := 42; freeCashFlow := 8 |} ]%Q.

Definition noAssumptionsQ : ScenarioAssumptions Q :=
  {| revenueGrowth := 0; marginShift := 0;
     efficiencyGain := 0; cashConversion := 0 |}%Q.

Definition basePower (b x : Q) : Q := b.

Definition plainWording (r : Engine.RiskRule) : string :=
  match r with
  | Engine.NegativeProfitability => "Net margin is negative."
  | Engine.OverLeverage => "Leverage is above 0.7."
  | Engine.ShortRunway => "Cash runway is under three months."
  | Engine.InefficientSpend => "Burn multiple is above 2."
  | Engine.WorseningCash => "Free cash flow is negative and falling."
  end.

Definition plainTemplate (t : Engine.Tier) (m : Engine.TrailingMetrics)
  : string :=
  match t with
  | Engine.Weak => "Fragile."
  | Engine.Steady => "Steady."
  | Engine.Strong => "Strong."
  end.

Definition plainCatalog (c : Engine.Category) : Engine.Recommendation :=
  {| Engine.title :=
       match c with
       | Engine.Growth => "Growth"
       | Engine.Profitability => "Profitability"
       | Engine.Liquidity => "Liquidity"
       | Engine.Efficiency => "Efficiency"
       end;
     Engine.highlight := "";
     Engine.bullets := [] |}.

Definition plainEngine :=
  Engine.runAnalysis basePower plainWording plainTemplate plainCatalog.

End Samples.

(** ** Sample states of the analyzer page *)

Module ClientSamples.

Definition fy2023 : FinancialPeriod number :=
  {| label := lit "FY2023"; revenue := ofZ 100; cogs := ofZ 40;
     operatingExpenses := ofZ 36; netIncome := ofZ 10; assets := ofZ 200;
     liabilities := ofZ 60; cash := ofZ 36; freeCashFlow := ofZ (-5) |}.

Definition fy2024 : FinancialPeriod number :=
  {| label := lit "FY2024"; revenue := ofZ 150; cogs := ofZ 60;
     operatingExpenses := ofZ 48; netIncome := ofZ 20; assets := ofZ 260;
     liabilities := ofZ 78; cash := ofZ 42; freeCashFlow := ofZ 8 |}.

Definition twoYears : Client.AnalyzerState :=
  {| Client.data := [fy2023; fy2024];
     Client.assumptions :=
       {| revenueGrowth := ofZ 5; marginShift := zero;
          efficiencyGain := zero; cashConversion := zero |} |}.

Definition noYears : Client.AnalyzerState :=
  {| Client.data := []; Client.assumptions := Client.assumptions twoYears |}.

(** A body without [periods], and one where it is an object. *)
Definition bodyWithoutPeriods : JsValue :=
  JObject [ (lit "assumptions", Samples.rawAssumptions) ].

Definition requestWithoutPeriods : Handler.Request :=
  {| Handler.json := Handler.Returned bodyWithoutPeriods |}.

Definition rowsWithoutMembers : list JsValue :=
  [JArray []; JObject []; JArray [JNumber (ofZ 1)]].

End ClientSamples.

(** * Properties of the sanitizers *)

Section Trim.

Lemma trimStart_nil (s : jsString) :
  trimStart s = [] <-> forallb isWhiteSpace s = true.
Proof.
  induction s as [|c r IH]; simpl.
  - tauto.
  - destruct (isWhiteSpace c); simpl.
    + exact IH.
    + split; discriminate.
Qed.

Lemma trimStart_head (s : jsString) (c : codeUnit) (r : jsString) :
  trimStart s = c :: r -> isWhiteSpace c = false.
Proof.
  induction s as [|d t IH]; simpl.
  - discriminate.
  - destruct (isWhiteSpace d) eqn:E.
    + exact IH.
    + intros H. injection H as -> _. exact E.
Qed.

Lemma forallb_rev_true (f : codeUnit -> bool) (s : jsString) :
  forallb f (rev s) = true -> forallb f s = true.
Proof.
  rewrite !forallb_forall. intros H x Hx. apply H, in_rev.
  rewrite rev_involutive. exact Hx.
Qed.

(** Trimming leaves nothing exactly when every code unit is white space. *)
Lemma trim_nil (s : jsString) :
  trim s = [] <-> forallb isWhiteSpace s = true.
Proof.
  unfold trim, trimEnd. split.
  - intros H.
    assert (Hr : trimStart (rev (trimStart s)) = []).
    { rewrite <- (rev_involutive (trimStart _)), H. reflexivity. }
    apply trimStart_nil, forallb_rev_true in Hr.
    destruct (trimStart s) as [|c r] eqn:E.
    + apply trimStart_nil, E.
    + apply trimStart_head in E. simpl in Hr. rewrite E in Hr. discriminate.
  - intros H. apply trimStart_nil in H. rewrite H. reflexivity.
Qed.

Lemma trim_length_test (s : jsString) :
  (0 <? List.length (trim s))%nat = negb (forallb isWhiteSpace s).
Proof.
  destruct (forallb isWhiteSpace s) eqn:E; simpl.
  - apply trim_nil in E. rewrite E. reflexivity.
  - destruct (trim s) eqn:T; [|reflexivity].
    apply trim_nil in T. congruence.
Qed.

End Trim.

Section Sanitizers.

Lemma sanitizeNumber_finite (value : JsValue) :
  isFinite (sanitizeNumber value) = true.
Proof.
  destruct value as [ | | b | n | s | items | members]; simpl;
    try reflexivity.
  - destruct (isFinite n) eqn:E; [exact E | reflexivity].
  - destruct (isFinite (parseFloat s)) eqn:E; [exact E | reflexivity].
Qed.

Lemma sanitizeNumber_default (value : JsValue) :
  acceptedNumber value = false -> sanitizeNumber value = zero.
Proof.
  destruct value as [ | | b | n | s | items | members]; simpl;
    intros H; try reflexivity; rewrite H; reflexivity.
Qed.

Lemma sanitizeNumber_accepted (value : JsValue) :
  acceptedNumber value = true ->
  (exists n, value = JNumber n /\ sanitizeNumber value = n) \/
  (exists s, value = JString s /\ sanitizeNumber value = parseFloat s).
Proof.
  destruct value as [ | | b | n | s | items | members]; simpl;
    intros H; try discriminate; rewrite H.
  - left. exists n. split; reflexivity.
  - right. exists s. split; reflexivity.
Qed.

Lemma periodOfRow_field (row : JsValue) (f : PeriodField) :
  periodField f (periodOfRow row)
  = sanitizeNumber (member row (periodFieldName f)).
Proof. destruct f; reflexivity. Qed.

Lemma normalizeRow_guard (row : JsValue) :
  normalizeRow row
  = if isRowObject row then Some (periodOfRow row) else None.
Proof.
  unfold normalizeRow, isRowObject.
  destruct (negb (isObjectType row) || isNull row); reflexivity.
Qed.

Lemma in_filterBoolean (A : Type) (x : A) (l : list (option A)) :
  In x (filterBoolean l) <-> In (Some x) l.
Proof.
  induction l as [|[y|] r IH]; simpl.
  - tauto.
  - rewrite IH. split; intros [H|H]; auto; left; congruence.
  - rewrite IH. split; [auto | intros [H|H]; [discriminate | exact H]].
Qed.

(** Every period of the output is what the callback made of one row. *)
Lemma normalizePeriods_origin (raw : JsValue) (p : FinancialPeriod number) :
  In p (normalizePeriods raw) ->
  exists rows row,
    raw = JArray rows /\ In row rows /\ isRowObject row = true
    /\ p = periodOfRow row.
Proof.
  destruct raw as [ | | b | n | s | rows | members]; simpl; try tauto.
  intros H. apply in_filterBoolean, in_map_iff in H.
  destruct H as [row [Hrow Hin]].
  exists rows, row. rewrite normalizeRow_guard in Hrow.
  destruct (isRowObject row); [|discriminate].
  injection Hrow as <-. auto.
Qed.

Lemma filterBoolean_map_normalizeRow (rows : list JsValue) :
  filterBoolean (List.map normalizeRow rows)
  = List.map periodOfRow (List.filter isRowObject rows).
Proof.
  induction rows as [|row rest IH]; simpl.
  - reflexivity.
  - rewrite normalizeRow_guard. destruct (isRowObject row); simpl;
      rewrite IH; reflexivity.
Qed.

Lemma filter_skip (A : Type) (f : A -> bool) (before after : list A) (x : A) :
  f x = false ->
  List.filter f (before ++ x :: after) = List.filter f (before ++ after).
Proof.
  intros H. rewrite !filter_app. simpl. rewrite H. reflexivity.
Qed.

Lemma filter_none (A : Type) (f : A -> bool) (l : list A) :
  forallb (fun x => negb (f x)) l = true -> List.filter f l = [].
Proof.
  induction l as [|x r IH]; simpl.
  - reflexivity.
  - destruct (f x); simpl; [discriminate | exact IH].
Qed.

Lemma periodOfRow_label (row : JsValue) :
  (exists s, member row (lit "label") = JString s
             /\ forallb isWhiteSpace s = false
             /\ label (periodOfRow row) = s)
  \/ ((forall s, member row (lit "label") = JString s ->
                 forallb isWhiteSpace s = true)
      /\ label (periodOfRow row) = lit "Period").
Proof.
  unfold periodOfRow; simpl.
  destruct (member row (lit "label")) as [ | | b | n | s | items | members]
    eqn:E; try (right; split; [intros s' Hs'; discriminate | reflexivity]).
  rewrite trim_length_test.
  destruct (forallb isWhiteSpace s) eqn:W; simpl.
  - right. split; [|reflexivity]. intros s' Hs'. congruence.
  - left. exists s. auto.
Qed.

Lemma normalizeAssumptions_default (raw : JsValue) :
  isRowObject raw = false ->
  normalizeAssumptions raw
  = {| revenueGrowth := zero; marginShift := zero;
       efficiencyGain := zero; cashConversion := zero |}.
Proof.
  unfold normalizeAssumptions, isRowObject.
  destruct raw as [ | | b | n | s | items | members]; simpl;
    try reflexivity; try discriminate.
  - destruct b; reflexivity.
  - destruct n; reflexivity.
  - destruct s; reflexivity.
Qed.

Lemma normalizeAssumptions_object (raw : JsValue) :
  isRowObject raw = true ->
  normalizeAssumptions raw
  = {| revenueGrowth := sanitizeNumber (member raw (lit "revenueGrowth"));
       marginShift := sanitizeNumber (member raw (lit "marginShift"));
       efficiencyGain := sanitizeNumber (member raw (lit "efficiencyGain"));
       cashConversion := sanitizeNumber (member raw (lit "cashConversion"))
    |}.
Proof.
  unfold normalizeAssumptions, isRowObject.
  destruct raw as [ | | b | n | s | items | members]; simpl;
    try discriminate; reflexivity.
Qed.

Lemma assumptionField_sanitized (raw : JsValue) (f : AssumptionField) :
  assumptionField f
    {| revenueGrowth := sanitizeNumber (member raw (lit "revenueGrowth"));
       marginShift := sanitizeNumber (member raw (lit "marginShift"));
       efficiencyGain := sanitizeNumber (member raw (lit "efficiencyGain"));
       cashConversion := sanitizeNumber (member raw (lit "cashConversion"))
    |}
  = sanitizeNumber (member raw (assumptionFieldName f)).
Proof. destruct f; reflexivity. Qed.

End Sanitizers.

(** * The parser and the engine on concrete inputs *)

Example parseFloat_integer :
  parseFloat (lit "150") = S754_finite false 5277655813324800 (-45).
Proof. reflexivity. Qed.

Example parseFloat_prefix : parseFloat (lit "12abc") = ofZ 12.
Proof. reflexivity. Qed.

(** The double nearest to one tenth, [0x1.999999999999ap-4]. *)
Example parseFloat_tenth :
  parseFloat (lit "0.1") = S754_finite false 7205759403792794 (-56).
Proof. reflexivity. Qed.

Example parseFloat_leading_space_and_exponent :
  parseFloat (lit "  -3.5E2 USD") = ofZ (-350).
Proof. reflexivity. Qed.

Example parseFloat_overflow : parseFloat (lit "1e400") = Infinity false.
Proof. vm_compute. reflexivity. Qed.

Example parseFloat_not_a_number :
  parseFloat (lit "abc") = NaN /\ parseFloat (lit ".") = NaN
  /\ parseFloat [] = NaN /\ parseFloat (lit "-Infinity") = Infinity true.
Proof. repeat split. Qed.

Example sanitizeNumber_rejects :
  sanitizeNumber (JString (lit "1e400")) = zero
  /\ sanitizeNumber (JNumber (Infinity true)) = zero
  /\ sanitizeNumber (JBool true) = zero
  /\ sanitizeNumber JUndefined = zero.
Proof. repeat split. Qed.

Example normalizePeriods_sample :
  List.map (fun p => (label p, revenue p, cogs p, assets p))
    (normalizePeriods Samples.rawPeriods)
  = [ (lit "FY2024", ofZ 150, zero, ofZ 40);
      (lit "Period", ofZ 12, zero, zero) ].
Proof. reflexivity. Qed.

(** The two-period example: growth of one half, a mean margin of 7/60 and
    a first scenario year of 225. *)
Example runAnalysis_two_periods :
  option_map
    (fun r =>
       (Qred (Engine.cagr (Engine.metrics r)),
        Qred (Engine.netMargin (Engine.metrics r)),
        List.map (fun y => Qred (Engine.scenarioRevenue y)) (Engine.scenario r)))
    (Samples.plainEngine Samples.historyQ Samples.noAssumptionsQ)
  = Some (1 # 2, 7 # 60, [225; 675 # 2; 2025 # 4])%Q.
Proof. vm_compute. reflexivity. Qed.

(** * The sanitization contract *)

(** C1: every numeric field of every period that [normalizePeriods] produces
    is a finite number; the period comes from one row of the raw array, and
    a field is [0] whenever that row's member is absent, or is neither a
    finite number nor a string from which a finite number is parsed. *)
Theorem normalizePeriods_numeric_fields (raw : JsValue)
  (p : FinancialPeriod number) :
  In p (normalizePeriods raw) ->
  (forall f, isFinite (periodField f p) = true)
  /\ exists rows row,
       raw = JArray rows /\ In row rows /\ p = periodOfRow row
       /\ (forall f, member row (periodFieldName f) = JUndefined ->
                     periodField f p = zero)
       /\ (forall f, acceptedNumber (member row (periodFieldName f)) = false ->
                     periodField f p = zero).
Proof.
  intros H. apply normalizePeriods_origin in H.
  destruct H as [rows [row [-> [Hin [_ ->]]]]]. split.
  - intros f. rewrite periodOfRow_field. apply sanitizeNumber_finite.
  - exists rows, row. repeat split; try assumption.
    + intros f Hf. rewrite periodOfRow_field, Hf. reflexivity.
    + intros f Hf. rewrite periodOfRow_field.
      apply sanitizeNumber_default, Hf.
Qed.

Lemma normalizePeriods_numeric_fields_witness :
  In (periodOfRow Samples.row2024) (normalizePeriods Samples.rawPeriods)
  /\ isFinite (revenue (periodOfRow Samples.row2024)) = true
  /\ isFinite (cogs (periodOfRow Samples.row2024)) = true.
Proof.
  assert (H : In (periodOfRow Samples.row2024)
                (normalizePeriods Samples.rawPeriods)).
  { simpl. left. reflexivity. }
  split; [exact H|].
  destruct (normalizePeriods_numeric_fields Samples.rawPeriods _ H)
    as [Hfin _].
  split; [exact (Hfin Revenue) | exact (Hfin Cogs)].
Defined.

(** C4: for every raw assumptions value the four fields that
    [normalizeAssumptions] returns are finite numbers; all four are [0] when
    the raw value is absent, [null] or not an object, and a field is [0]
    when its member is neither a finite number nor a string from which a
    finite number is parsed. *)
Theorem normalizeAssumptions_fields (raw : JsValue) :
  (forall f, isFinite (assumptionField f (normalizeAssumptions raw)) = true)
  /\ (isRowObject raw = false ->
      forall f, assumptionField f (normalizeAssumptions raw) = zero)
  /\ (forall f,
        acceptedNumber (member raw (assumptionFieldName f)) = false ->
        assumptionField f (normalizeAssumptions raw) = zero).
Proof.
  destruct (isRowObject raw) eqn:E.
  - rewrite (normalizeAssumptions_object raw E). repeat split.
    + intros f. rewrite assumptionField_sanitized.
      apply sanitizeNumber_finite.
    + discriminate.
    + intros f Hf. rewrite assumptionField_sanitized.
      apply sanitizeNumber_default, Hf.
  - rewrite (normalizeAssumptions_default raw E).
    repeat split; intros; match goal with f : AssumptionField |- _ =>
                            destruct f; reflexivity end.
Qed.

Lemma normalizeAssumptions_fields_witness :
  isRowObject (JString (lit "5")) = false
  /\ revenueGrowth (normalizeAssumptions (JString (lit "5"))) = zero
  /\ acceptedNumber
       (member Samples.rawAssumptions (assumptionFieldName EfficiencyGain))
     = false
  /\ efficiencyGain (normalizeAssumptions Samples.rawAssumptions) = zero.
Proof.
  destruct (normalizeAssumptions_fields (JString (lit "5"))) as [_ [Hobj _]].
  destruct (normalizeAssumptions_fields Samples.rawAssumptions)
    as [_ [_ Hfield]].
  split; [reflexivity|].
  split; [exact (Hobj eq_refl RevenueGrowth)|].
  split; [reflexivity|].
  exact (Hfield EfficiencyGain eq_refl).
Defined.

(** C5: every period that [normalizePeriods] produces has a non-empty label:
    the raw row's label unchanged when that is a string with some code unit
    that is not white space, and ["Period"] when the label is missing, not a
    string, or white space only. *)
Theorem normalizePeriods_label (raw : JsValue) (p : FinancialPeriod number) :
  In p (normalizePeriods raw) ->
  label p <> []
  /\ exists rows row,
       raw = JArray rows /\ In row rows /\ p = periodOfRow row
       /\ ((exists s, member row (lit "label") = JString s
                      /\ forallb isWhiteSpace s = false
                      /\ label p = s)
           \/ ((forall s, member row (lit "label") = JString s ->
                          forallb isWhiteSpace s = true)
               /\ label p = lit "Period")).
Proof.
  intros H. apply normalizePeriods_origin in H.
  destruct H as [rows [row [-> [Hin [_ ->]]]]].
  pose proof (periodOfRow_label row) as L. split.
  - destruct L as [[s [_ [W ->]]] | [_ ->]].
    + intros ->. discriminate.
    + discriminate.
  - exists rows, row. auto.
Qed.

Lemma normalizePeriods_label_witness :
  In (periodOfRow Samples.rowBlankLabel) (normalizePeriods Samples.rawPeriods)
  /\ label (periodOfRow Samples.rowBlankLabel) <> [].
Proof.
  assert (H : In (periodOfRow Samples.rowBlankLabel)
                (normalizePeriods Samples.rawPeriods)).
  { simpl. right. left. reflexivity. }
  split; [exact H|].
  exact (proj1 (normalizePeriods_label Samples.rawPeriods _ H)).
Defined.

(** C8: a string from which [parseFloat] reads a finite number is sanitized
    to that number, not to the default: ["150"] gives 150 and ["12abc"]
    gives 12. *)
Theorem sanitizeNumber_numeric_string :
  (forall s, isFinite (parseFloat s) = true ->
             sanitizeNumber (JString s) = parseFloat s)
  /\ sanitizeNumber (JString (lit "150")) = ofZ 150
  /\ sanitizeNumber (JString (lit "12abc")) = ofZ 12
  /\ ofZ 150 <> zero /\ ofZ 12 <> zero.
Proof.
  split.
  - intros s H. simpl. rewrite H. reflexivity.
  - repeat split; try reflexivity; discriminate.
Qed.

Lemma sanitizeNumber_numeric_string_witness :
  isFinite (parseFloat (lit " 3.5e2x")) = true
  /\ sanitizeNumber (JString (lit " 3.5e2x")) = ofZ 350.
Proof.
  split; [reflexivity|].
  rewrite (proj1 sanitizeNumber_numeric_string (lit " 3.5e2x") eq_refl).
  reflexivity.
Defined.

(** C10: on an array, [normalizePeriods] is the row-by-row image of the
    entries that are non-null objects, in their order, each period a
    function of its own entry; so the output has as many periods as the
    array has such entries. *)
Theorem normalizePeriods_rowwise (rows : list JsValue) :
  normalizePeriods (JArray rows)
  = List.map periodOfRow (List.filter isRowObject rows)
  /\ List.length (normalizePeriods (JArray rows))
     = List.length (List.filter isRowObject rows).
Proof.
  simpl. rewrite filterBoolean_map_normalizeRow. split.
  - reflexivity.
  - apply length_map.
Qed.

(** * The [POST] handler *)

Section HandlerProperties.

Import Handler.

Context {AnalysisResult : Type}.
Variable runAnalysis :
  list (FinancialPeriod number) -> ScenarioAssumptions number ->
  Outcome AnalysisResult.

(** The [try] block once the body is parsed and is not [null]: the guard on
    the sanitized periods, then the call into the analysis library. *)
Lemma POST_try_parsed (request : Request) (parsed : JsValue) (w : World) :
  json request = Returned parsed ->
  parsed <> JNull -> parsed <> JUndefined ->
  POST_try runAnalysis request w
  = let periods := normalizePeriods (member parsed (lit "periods")) in
    let assumptions := normalizeAssumptions (member parsed (lit "assumptions")) in
    match periods with
    | [] =>
        (Returned {| status := 400;
                     body := ErrorBody "No financial periods supplied." |}, w)
    | _ :: _ =>
        let w' := {| engineCalls := engineCalls w ++ [(periods, assumptions)];
                     consoleErrors := consoleErrors w |} in
        match runAnalysis periods assumptions with
        | Returned analysis =>
            (Returned {| status := 200; body := DataBody analysis |}, w')
        | Threw e => (Threw e, w')
        end
    end.
Proof.
  intros Hjson Hnull Hundef.
  unfold POST_try, bind, awaitJson. rewrite Hjson.
  assert (Hread : forall key,
             readMember parsed key = ret (member parsed (lit key))).
  { intros key. destruct parsed; try reflexivity; congruence. }
  rewrite !Hread. unfold ret. cbv zeta.
  destruct (normalizePeriods (member parsed (lit "periods"))) as [|p ps];
    [reflexivity|].
  cbn [List.length Nat.eqb]. unfold callRunAnalysis, NextResponse_json.
  destruct (runAnalysis _ _); reflexivity.
Qed.

Lemma POST_try_rejected (request : Request) (e : Exn) (w : World) :
  json request = Threw e ->
  POST_try runAnalysis request w = (Threw e, w).
Proof.
  intros H. unfold POST_try, bind, awaitJson. rewrite H. reflexivity.
Qed.

Lemma POST_try_null (request : Request) (w : World) :
  json request = Returned JNull ->
  POST_try runAnalysis request w = (Threw (TypeError "periods"), w).
Proof.
  intros H. unfold POST_try, bind, awaitJson. rewrite H. reflexivity.
Qed.

Lemma POST_catch (request : Request) (w w1 : World) (e : Exn) :
  POST_try runAnalysis request w = (Threw e, w1) ->
  POST runAnalysis request w
  = (Returned {| status := 500;
                 body := ErrorBody "Unable to evaluate financials." |},
     {| engineCalls := engineCalls w1;
        consoleErrors := consoleErrors w1 ++ [("Analysis error"%string, e)] |}).
Proof.
  intros H. unfold POST, tryCatch. rewrite H. reflexivity.
Qed.

Lemma POST_pass (request : Request) (w w1 : World)
  (response : Response AnalysisResult) :
  POST_try runAnalysis request w = (Returned response, w1) ->
  POST runAnalysis request w = (Returned response, w1).
Proof.
  intros H. unfold POST, tryCatch. rewrite H. reflexivity.
Qed.

(** C2: when the sanitized periods list is empty the handler answers 400
    with an error body and leaves the record of engine calls as it was;
    when the list is not empty and the analysis returns, it answers 200 with
    the analysis as [data], after one call of the engine. *)
Theorem POST_empty_or_success (request : Request) (parsed : JsValue)
  (w : World) :
  json request = Returned parsed ->
  parsed <> JNull -> parsed <> JUndefined ->
  let periods := normalizePeriods (member parsed (lit "periods")) in
  let assumptions := normalizeAssumptions (member parsed (lit "assumptions")) in
  (periods = [] ->
   POST runAnalysis request w
   = (Returned {| status := 400;
                  body := ErrorBody "No financial periods supplied." |}, w))
  /\ (forall analysis,
        periods <> [] ->
        runAnalysis periods assumptions = Returned analysis ->
        POST runAnalysis request w
        = (Returned {| status := 200; body := DataBody analysis |},
           {| engineCalls := engineCalls w ++ [(periods, assumptions)];
              consoleErrors := consoleErrors w |})).
Proof.
  intros Hjson Hnull Hundef periods assumptions.
  pose proof (POST_try_parsed request w Hjson Hnull Hundef) as T.
  cbv zeta in T. fold periods assumptions in T. split.
  - intros E. rewrite E in T. apply POST_pass, T.
  - intros analysis Hne Hrun. destruct periods as [|p ps] eqn:E;
      [congruence|].
    rewrite Hrun in T. apply POST_pass, T.
Qed.

(** C3: the handler always answers; whenever the [try] block throws, be it
    [request.json()], the member read on a [null] body or the analysis, the
    answer is 500 with one fixed error text, the same for every exception,
    and the exception goes to [console.error]. *)
Theorem POST_never_throws :
  (forall request w, exists response w',
      POST runAnalysis request w = (Returned response, w'))
  /\ (forall request w e w1,
        POST_try runAnalysis request w = (Threw e, w1) ->
        POST runAnalysis request w
        = (Returned {| status := 500;
                       body := ErrorBody "Unable to evaluate financials." |},
           {| engineCalls := engineCalls w1;
              consoleErrors :=
                consoleErrors w1 ++ [("Analysis error"%string, e)] |}))
  /\ (forall request w e,
        json request = Threw e ->
        POST_try runAnalysis request w = (Threw e, w))
  /\ (forall request w,
        json request = Returned JNull ->
        exists e, POST_try runAnalysis request w = (Threw e, w))
  /\ (forall request parsed w e,
        json request = Returned parsed ->
        parsed <> JNull -> parsed <> JUndefined ->
        let periods := normalizePeriods (member parsed (lit "periods")) in
        let assumptions :=
          normalizeAssumptions (member parsed (lit "assumptions")) in
        periods <> [] ->
        runAnalysis periods assumptions = Threw e ->
        POST_try runAnalysis request w
        = (Threw e,
           {| engineCalls := engineCalls w ++ [(periods, assumptions)];
              consoleErrors := consoleErrors w |})).
Proof.
  split; [|split; [|split; [|split]]].
  - intros request w. unfold POST, tryCatch.
    destruct (POST_try runAnalysis request w) as [[response|e] w1].
    + exists response, w1. reflexivity.
    + eexists _, _. reflexivity.
  - intros request w e w1. apply POST_catch.
  - intros request w e. apply POST_try_rejected.
  - intros request w H. eexists. apply POST_try_null, H.
  - intros request parsed w e Hjson Hnull Hundef periods assumptions Hne Hrun.
    pose proof (POST_try_parsed request w Hjson Hnull Hundef) as T.
    cbv zeta in T. fold periods assumptions in T.
    destruct periods as [|p ps] eqn:E; [congruence|].
    rewrite Hrun in T. exact T.
Qed.

(** C9: a raw value that is not an array gives no periods; an entry that is
    [null] or not an object is dropped without trace; so a request whose
    [periods] is a non-empty array of such entries only is answered with
    the 400 of the empty input. *)
Theorem POST_rejects_rows_of_primitives :
  (forall raw, isArray raw = false -> normalizePeriods raw = [])
  /\ (forall before row after,
        isRowObject row = false ->
        normalizePeriods (JArray (before ++ row :: after))
        = normalizePeriods (JArray (before ++ after)))
  /\ (forall request parsed rows w,
        json request = Returned parsed ->
        member parsed (lit "periods") = JArray rows ->
        rows <> [] ->
        forallb (fun row => negb (isRowObject row)) rows = true ->
        POST runAnalysis request w
        = (Returned {| status := 400;
                       body := ErrorBody "No financial periods supplied." |},
           w)).
Proof.
  split; [|split].
  - intros raw H. destruct raw; try reflexivity. discriminate.
  - intros before row after H. simpl.
    rewrite !filterBoolean_map_normalizeRow, (filter_skip _ _ _ _ H).
    reflexivity.
  - intros request parsed rows w Hjson Hmem _ Hall.
    assert (Hnull : parsed <> JNull) by (intros ->; discriminate).
    assert (Hundef : parsed <> JUndefined) by (intros ->; discriminate).
    pose proof (POST_try_parsed request w Hjson Hnull Hundef) as T.
    cbv zeta in T. rewrite Hmem in T. simpl normalizePeriods in T.
    rewrite filterBoolean_map_normalizeRow, (filter_none _ _ Hall) in T.
    apply POST_pass, T.
Qed.

End HandlerProperties.

Lemma POST_empty_or_success_witness :
  Handler.POST Samples.countingEngine Samples.requestOfPrimitives
    Samples.quietWorld
  = (Handler.Returned
       {| Handler.status := 400;
          Handler.body := Handler.ErrorBody "No financial periods supplied." |},
     Samples.quietWorld)
  /\ Handler.POST Samples.countingEngine Samples.requestWithPeriods
       Samples.quietWorld
     = (Handler.Returned
          {| Handler.status := 200; Handler.body := Handler.DataBody 2%nat |},
        {| Handler.engineCalls :=
             [(normalizePeriods Samples.rawPeriods,
               normalizeAssumptions Samples.rawAssumptions)];
           Handler.consoleErrors := [] |}).
Proof.
  split.
  - pose proof (@POST_empty_or_success nat Samples.countingEngine
                  Samples.requestOfPrimitives _ Samples.quietWorld eq_refl)
      as H.
    cbv zeta in H. apply H; [discriminate | discriminate | reflexivity].
  - pose proof (@POST_empty_or_success nat Samples.countingEngine
                  Samples.requestWithPeriods _ Samples.quietWorld eq_refl)
      as H.
    cbv zeta in H.
    destruct H as [_ H]; [discriminate | discriminate |].
    apply (H 2%nat); [discriminate | reflexivity].
Defined.

Lemma POST_never_throws_witness :
  Handler.POST Samples.failingEngine Samples.requestWithPeriods
    Samples.quietWorld
  = (Handler.Returned
       {| Handler.status := 500;
          Handler.body := Handler.ErrorBody "Unable to evaluate financials." |},
     {| Handler.engineCalls :=
          [(normalizePeriods Samples.rawPeriods,
            normalizeAssumptions Samples.rawAssumptions)];
        Handler.consoleErrors :=
          [("Analysis error"%string,
            Handler.EngineFailure "division by zero in scorer")] |})
  /\ Handler.POST Samples.countingEngine Samples.requestMalformed
       Samples.quietWorld
     = (Handler.Returned
          {| Handler.status := 500;
             Handler.body :=
               Handler.ErrorBody "Unable to evaluate financials." |},
        {| Handler.engineCalls := [];
           Handler.consoleErrors :=
             [("Analysis error"%string,
               Handler.BodyRejected "Unexpected token")] |}).
Proof.
  split.
  - destruct (@POST_never_throws nat Samples.failingEngine)
      as [_ [Hcatch [_ [_ Hengine]]]].
    apply Hcatch with (w1 := {| Handler.engineCalls :=
                                  [(normalizePeriods Samples.rawPeriods,
                                    normalizeAssumptions Samples.rawAssumptions)];
                                Handler.consoleErrors := [] |}).
    pose proof (Hengine Samples.requestWithPeriods _ Samples.quietWorld
                  (Handler.EngineFailure "division by zero in scorer")
                  eq_refl) as H.
    cbv zeta in H.
    apply H; [discriminate | discriminate | discriminate | reflexivity].
  - destruct (@POST_never_throws nat Samples.countingEngine)
      as [_ [Hcatch [Hjson _]]].
    apply (Hcatch Samples.requestMalformed Samples.quietWorld
             (Handler.BodyRejected "Unexpected token") Samples.quietWorld).
    apply Hjson. reflexivity.
Defined.

Lemma POST_rejects_rows_of_primitives_witness :
  Samples.rowsOfPrimitives <> []
  /\ Handler.POST Samples.countingEngine Samples.requestOfPrimitives
       Samples.quietWorld
     = (Handler.Returned
          {| Handler.status := 400;
             Handler.body :=
               Handler.ErrorBody "No financial periods supplied." |},
        Samples.quietWorld).
Proof.
  split; [discriminate|].
  destruct (@POST_rejects_rows_of_primitives nat Samples.countingEngine)
    as [_ [_ H]].
  apply (H Samples.requestOfPrimitives _ Samples.rowsOfPrimitives
           Samples.quietWorld eq_refl eq_refl);
    [discriminate | reflexivity].
Defined.

(** * The analysis engine: shape and bounds *)

Section EngineProperties.

Import Engine.
Local Open Scope Q_scope.

Variable power : Q -> Q -> Q.
Variable signalWording : RiskRule -> string.
Variable narrativeTemplate : Tier -> TrailingMetrics -> string.
Variable catalog : Category -> Recommendation.

Lemma clamp_bounds (lo hi x : Q) :
  lo <= hi -> lo <= clamp lo hi x <= hi.
Proof.
  intros H. unfold clamp.
  destruct (Qle_bool x lo) eqn:E1.
  - split; [apply Qle_refl | exact H].
  - destruct (Qle_bool hi x) eqn:E2.
    + split; [exact H | apply Qle_refl].
    + split; apply Qlt_le_weak, Qnot_le_lt; intros L;
        apply Qle_bool_iff in L; congruence.
Qed.

Lemma linearScore_bounds (bad good x : Q) :
  0 <= linearScore bad good x <= 100.
Proof. apply clamp_bounds. discriminate. Qed.

Lemma projectYears_length (horizon index : nat) (previous rate margin fcf : Q) :
  List.length (projectYears horizon index previous rate margin fcf) = horizon.
Proof.
  revert index previous.
  induction horizon as [|h IH]; intros index previous; simpl.
  - reflexivity.
  - rewrite IH. reflexivity.
Qed.

Lemma insertByScore_length (h : HealthScores) (c : Category)
  (sorted : list Category) :
  List.length (insertByScore h c sorted) = S (List.length sorted).
Proof.
  induction sorted as [|d r IH]; simpl.
  - reflexivity.
  - destruct (Qltb (categoryScore h c) (categoryScore h d)); simpl.
    + reflexivity.
    + rewrite IH. reflexivity.
Qed.

Lemma rankCategories_length (h : HealthScores) :
  List.length (rankCategories h) = 4%nat.
Proof.
  unfold rankCategories. cbn [fold_left].
  rewrite !insertByScore_length. reflexivity.
Qed.

Lemma recommend_length (h : HealthScores) :
  List.length (recommend catalog h) = 3%nat.
Proof.
  unfold recommend. rewrite length_map, length_firstn, rankCategories_length.
  reflexivity.
Qed.

Lemma detectRisks_length (periods : list (FinancialPeriod Q))
  (m : TrailingMetrics) :
  (List.length (detectRisks signalWording periods m) <= 5)%nat.
Proof.
  unfold detectRisks. rewrite length_map.
  apply (filter_length_le (ruleFires periods m) ruleSet).
Qed.

(** C6: on a non-empty sequence of periods the engine returns a result with
    exactly three scenario years, exactly three recommendation sections and
    at most five risk signals. *)
Theorem runAnalysis_shape (periods : list (FinancialPeriod Q))
  (assumptions : ScenarioAssumptions Q) :
  periods <> [] ->
  exists result,
    runAnalysis power signalWording narrativeTemplate catalog
      periods assumptions = Some result
    /\ List.length (scenario result) = 3%nat
    /\ List.length (recommendations result) = 3%nat
    /\ (0 <= List.length (riskSignals result) <= 5)%nat.
Proof.
  intros H. destruct periods as [|first rest]; [congruence|].
  eexists. split; [reflexivity|].
  cbn [scenario recommendations riskSignals].
  split; [apply projectYears_length|].
  split; [apply recommend_length|].
  split; [apply Nat.le_0_l | apply detectRisks_length].
Qed.

(** C7: on a non-empty sequence of periods each of the five health scores
    of the result lies between 0 and 100. *)
Theorem runAnalysis_scores_bounded (periods : list (FinancialPeriod Q))
  (assumptions : ScenarioAssumptions Q) :
  periods <> [] ->
  exists result,
    runAnalysis power signalWording narrativeTemplate catalog
      periods assumptions = Some result
    /\ 0 <= overall (healthScores result) <= 100
    /\ 0 <= growth (healthScores result) <= 100
    /\ 0 <= profitability (healthScores result) <= 100
    /\ 0 <= liquidity (healthScores result) <= 100
    /\ 0 <= efficiency (healthScores result) <= 100.
Proof.
  intros H. destruct periods as [|first rest]; [congruence|].
  eexists. split; [reflexivity|].
  cbn [healthScores]. unfold scoreHealth.
  cbn [overall growth profitability liquidity efficiency].
  split; [apply clamp_bounds; discriminate|].
  repeat split; apply linearScore_bounds.
Qed.

End EngineProperties.

Lemma runAnalysis_shape_witness :
  Samples.historyQ <> []
  /\ match Samples.plainEngine Samples.historyQ Samples.noAssumptionsQ with
     | Some result =>
         List.length (Engine.scenario result) = 3%nat
         /\ List.length (Engine.recommendations result) = 3%nat
         /\ (List.length (Engine.riskSignals result) <= 5)%nat
     | None => False
     end.
Proof.
  assert (H : Samples.historyQ <> []) by discriminate.
  split; [exact H|].
  destruct (runAnalysis_shape Samples.basePower Samples.plainWording
              Samples.plainTemplate Samples.plainCatalog
              Samples.noAssumptionsQ H) as [result [E [S3 [R3 [_ K5]]]]].
  unfold Samples.plainEngine. rewrite E. auto.
Defined.

Lemma runAnalysis_scores_bounded_witness :
  Samples.historyQ <> []
  /\ match Samples.plainEngine Samples.historyQ Samples.noAssumptionsQ with
     | Some result =>
         (0 <= Engine.overall (Engine.healthScores result) <= 100)%Q
         /\ (0 <= Engine.liquidity (Engine.healthScores result) <= 100)%Q
     | None => False
     end.
Proof.
  assert (H : Samples.historyQ <> []) by discriminate.
  split; [exact H|].
  destruct (runAnalysis_scores_bounded Samples.basePower Samples.plainWording
              Samples.plainTemplate Samples.plainCatalog
              Samples.noAssumptionsQ H) as [result [E [O [_ [_ [L _]]]]]].
  unfold Samples.plainEngine. rewrite E. auto.
Defined.

(** * Further properties of the route *)

(** X1: sanitizing is idempotent: a sanitized number is accepted as it is
    when it comes back as a number. *)
Theorem sanitizeNumber_idempotent (value : JsValue) :
  acceptedNumber (JNumber (sanitizeNumber value)) = true
  /\ sanitizeNumber (JNumber (sanitizeNumber value)) = sanitizeNumber value.
Proof.
  simpl. rewrite sanitizeNumber_finite. split; reflexivity.
Qed.

Lemma JsValue_null_or_not (v : JsValue) :
  (v = JNull \/ v = JUndefined) \/ (v <> JNull /\ v <> JUndefined).
Proof.
  destruct v; try (right; split; discriminate); left; auto.
Qed.

Section RouteOutcomes.

Import Handler.

Context {AnalysisResult : Type}.
Variable runAnalysis :
  list (FinancialPeriod number) -> ScenarioAssumptions number ->
  Outcome AnalysisResult.

(** X2: a parsed body whose [periods] is missing or is anything but an
    array (the body may itself be a number, a string or an array) is
    answered with the 400 of the empty input, and the engine is not
    called. *)
Theorem POST_periods_not_an_array (request : Request) (parsed : JsValue)
  (w : World) :
  json request = Returned parsed ->
  parsed <> JNull -> parsed <> JUndefined ->
  isArray (member parsed (lit "periods")) = false ->
  POST runAnalysis request w
  = (Returned {| status := 400;
                 body := ErrorBody "No financial periods supplied." |}, w).
Proof.
  intros Hjson Hnull Hundef Harr.
  pose proof (POST_try_parsed runAnalysis request w Hjson Hnull Hundef) as T.
  cbv zeta in T.
  assert (E : normalizePeriods (member parsed (lit "periods")) = []).
  { destruct (member parsed (lit "periods")); try reflexivity. discriminate. }
  rewrite E in T. apply POST_pass, T.
Qed.

(** X3: the handler has three outcomes and no other.  Either 400 with the
    world untouched; or 200 carrying what the engine returned, after exactly
    one engine call and nothing logged; or 500 with the fixed text, exactly
    one line logged and at most one engine call. *)
Theorem POST_outcomes (request : Request) (w : World) :
  POST runAnalysis request w
  = (Returned {| status := 400;
                 body := ErrorBody "No financial periods supplied." |}, w)
  \/ (exists periods assumptions analysis,
        periods <> []
        /\ runAnalysis periods assumptions = Returned analysis
        /\ POST runAnalysis request w
           = (Returned {| status := 200; body := DataBody analysis |},
              {| engineCalls := engineCalls w ++ [(periods, assumptions)];
                 consoleErrors := consoleErrors w |}))
  \/ (exists e calls,
        (calls = engineCalls w
         \/ exists call, calls = engineCalls w ++ [call])
        /\ POST runAnalysis request w
           = (Returned {| status := 500;
                          body := ErrorBody "Unable to evaluate financials." |},
              {| engineCalls := calls;
                 consoleErrors :=
                   consoleErrors w ++ [("Analysis error"%string, e)] |})).
Proof.
  destruct (json request) as [parsed|e] eqn:Hjson.
  - destruct (JsValue_null_or_not parsed) as [Hbad | [Hnull Hundef]].
    + right; right. exists (TypeError "periods"), (engineCalls w).
      split; [left; reflexivity|]. apply POST_catch.
      unfold POST_try, bind, awaitJson. rewrite Hjson.
      destruct Hbad as [-> | ->]; reflexivity.
    + pose proof (POST_try_parsed runAnalysis request w Hjson Hnull Hundef)
        as T.
      cbv zeta in T.
      set (periods := normalizePeriods (member parsed (lit "periods"))) in *.
      set (assumptions :=
             normalizeAssumptions (member parsed (lit "assumptions"))) in *.
      destruct periods as [|p ps].
      * left. apply POST_pass, T.
      * destruct (runAnalysis (p :: ps) assumptions) as [analysis|e] eqn:R.
        -- right; left. exists (p :: ps), assumptions, analysis.
           split; [discriminate|]. split; [exact R|]. apply POST_pass, T.
        -- right; right. eexists e, _. split.
           ++ right. eexists. reflexivity.
           ++ apply (POST_catch _ _ _ T).
  - right; right. exists e, (engineCalls w). split; [left; reflexivity|].
    apply POST_catch, POST_try_rejected, Hjson.
Qed.

End RouteOutcomes.

Lemma POST_periods_not_an_array_witness :
  Handler.POST Samples.countingEngine ClientSamples.requestWithoutPeriods
    Samples.quietWorld
  = (Handler.Returned
       {| Handler.status := 400;
          Handler.body := Handler.ErrorBody "No financial periods supplied." |},
     Samples.quietWorld).
Proof.
  apply (@POST_periods_not_an_array nat Samples.countingEngine
           ClientSamples.requestWithoutPeriods
           ClientSamples.bodyWithoutPeriods Samples.quietWorld eq_refl);
    [discriminate | discriminate | reflexivity].
Defined.

Lemma memberless_row (row : JsValue) :
  Client.memberless row = true ->
  isRowObject row = true /\ periodOfRow row = Client.placeholderPeriod.
Proof.
  destruct row as [ | | b | n | s | items | [|m members]]; try discriminate;
    intros _; split; reflexivity.
Qed.

(** X4: a row that is an array, or an object without members, is not
    dropped: it becomes a period labelled ["Period"] with every number 0,
    so an array of such rows gives that many placeholder periods. *)
Theorem normalizePeriods_memberless_rows (rows : list JsValue) :
  forallb Client.memberless rows = true ->
  normalizePeriods (JArray rows)
  = repeat Client.placeholderPeriod (List.length rows).
Proof.
  unfold normalizePeriods. rewrite filterBoolean_map_normalizeRow.
  induction rows as [|row rest IH]; intros H.
  - reflexivity.
  - cbn [forallb] in H. apply andb_prop in H. destruct H as [Hrow Hrest].
    destruct (@memberless_row row Hrow) as [Hobj Hperiod].
    cbn [List.filter List.length repeat]. rewrite Hobj.
    cbn [List.map]. rewrite Hperiod, (IH Hrest). reflexivity.
Qed.

Lemma normalizePeriods_memberless_rows_witness :
  normalizePeriods (JArray ClientSamples.rowsWithoutMembers)
  = [Client.placeholderPeriod; Client.placeholderPeriod;
     Client.placeholderPeriod].
Proof.
  exact (@normalizePeriods_memberless_rows ClientSamples.rowsWithoutMembers
           eq_refl).
Defined.

Section DigitsInText.

Lemma isDigit_range (c : codeUnit) :
  isDigit c = true -> (48 <= c <= 57)%N.
Proof.
  unfold isDigit. intros H. apply andb_prop in H. destruct H as [A B].
  apply N.leb_le in A. apply N.leb_le in B. lia.
Qed.

Lemma eqb_outside (c k : N) : (c <> k)%N -> N.eqb c k = false.
Proof. intros H. apply N.eqb_neq, H. Qed.

Lemma digit_not_white (c : codeUnit) :
  isDigit c = true -> isWhiteSpace c = false.
Proof.
  intros H. apply isDigit_range in H. unfold isWhiteSpace. simpl.
  rewrite !eqb_outside by lia.
  replace (8192 <=? c)%N with false by (symmetry; apply N.leb_gt; lia).
  reflexivity.
Qed.

Lemma trimStart_app (ws s : jsString) :
  forallb isWhiteSpace ws = true -> trimStart (ws ++ s) = trimStart s.
Proof.
  induction ws as [|c r IH]; simpl.
  - reflexivity.
  - intros H. apply andb_prop in H. destruct H as [-> Hr]. apply IH, Hr.
Qed.

Lemma takeDigits_app (ds rest : jsString) :
  forallb isDigit ds = true ->
  match rest with [] => true | c :: _ => negb (isDigit c) end = true ->
  takeDigits (ds ++ rest) = (List.map (fun c => (c - 48)%N) ds, rest).
Proof.
  intros Hds Hrest. induction ds as [|d r IH]; simpl.
  - destruct rest as [|c t]; [reflexivity|]. simpl.
    apply negb_true_iff in Hrest. rewrite Hrest. reflexivity.
  - simpl in Hds. apply andb_prop in Hds. destruct Hds as [-> Hr].
    rewrite (IH Hr). reflexivity.
Qed.

Lemma endsLiteral_head (s : jsString) :
  endsLiteral s = true ->
  match s with [] => true | c :: _ => negb (isDigit c) end = true
  /\ fractionPart s = ([], s) /\ exponentPart s = 0%Z
  /\ exponentSplit s = (0%Z, s).
Proof.
  destruct s as [|c r]; simpl.
  - intros _. repeat split.
  - intros H. apply negb_true_iff in H.
    apply orb_false_elim in H. destruct H as [H E69].
    apply orb_false_elim in H. destruct H as [H E101].
    apply orb_false_elim in H. destruct H as [D E46].
    rewrite D, E46, E101, E69. repeat split.
Qed.

(** A run of digits followed by text that ends the literal is read as the
    integer the digits spell. *)
Lemma parseFloat_digits (ws ds suffix : jsString) :
  forallb isWhiteSpace ws = true ->
  ds <> [] -> forallb isDigit ds = true ->
  endsLiteral suffix = true ->
  parseFloat (ws ++ ds ++ suffix)
  = ofDecimal false (digitsValue (List.map (fun c => (c - 48)%N) ds)) 0.
Proof.
  intros Hws Hne Hds Hend.
  destruct (@endsLiteral_head suffix Hend) as [Hhead [Hfrac [Hexp _]]].
  destruct ds as [|d r]; [congruence|].
  pose proof Hds as Hd. simpl in Hd. apply andb_prop in Hd.
  destruct Hd as [Hd _].
  unfold parseFloat. rewrite (@trimStart_app ws _ Hws).
  assert (Hts : trimStart ((d :: r) ++ suffix) = (d :: r) ++ suffix).
  { simpl. rewrite (@digit_not_white d Hd). reflexivity. }
  rewrite Hts.
  pose proof (@isDigit_range d Hd) as Hrange.
  assert (Hsign : takeSign ((d :: r) ++ suffix) = (false, (d :: r) ++ suffix)).
  { cbn [app takeSign]. rewrite !eqb_outside by lia. reflexivity. }
  rewrite Hsign. unfold unsignedLiteral.
  assert (Hinf : startsWith (lit "Infinity") ((d :: r) ++ suffix) = false).
  { change (lit "Infinity") with (73%N :: lit "nfinity").
    cbn [app startsWith]. rewrite (N.eqb_sym 73 d), eqb_outside by lia.
    reflexivity. }
  rewrite Hinf, (@takeDigits_app (d :: r) suffix Hds Hhead), Hfrac, Hexp.
  rewrite app_nil_r. reflexivity.
Qed.

(** X5: white space in front of a run of digits and any text after it that
    does not continue the literal do not change what [sanitizeNumber] makes
    of the string: it is what it makes of the digits alone. *)
Theorem sanitizeNumber_digits_in_text (ws ds suffix : jsString) :
  forallb isWhiteSpace ws = true ->
  ds <> [] -> forallb isDigit ds = true ->
  endsLiteral suffix = true ->
  parseFloat (ws ++ ds ++ suffix) = parseFloat ds
  /\ sanitizeNumber (JString (ws ++ ds ++ suffix))
     = sanitizeNumber (JString ds).
Proof.
  intros Hws Hne Hds Hend.
  assert (E : parseFloat (ws ++ ds ++ suffix) = parseFloat ds).
  { rewrite (@parseFloat_digits ws ds suffix Hws Hne Hds Hend).
    rewrite <- (app_nil_r ds) at 2.
    symmetry. apply (@parseFloat_digits [] ds [] eq_refl Hne Hds eq_refl). }
  split; [exact E|]. simpl. rewrite E. reflexivity.
Qed.

End DigitsInText.

Lemma sanitizeNumber_digits_in_text_witness :
  sanitizeNumber (JString (lit "  2024 (restated)"))
  = sanitizeNumber (JString (lit "2024")).
Proof.
  exact (proj2 (@sanitizeNumber_digits_in_text (lit "  ") (lit "2024")
                  (lit " (restated)") eq_refl
                  ltac:(discriminate) eq_refl eq_refl)).
Defined.

(** * The analyzer page: what a cell stores *)

Section CellText.

Import Client.

Lemma trimStart_fixed (s : jsString) :
  match s with [] => true | c :: _ => negb (isWhiteSpace c) end = true ->
  trimStart s = s.
Proof.
  destruct s as [|c r]; simpl; [reflexivity|].
  intros H. apply negb_true_iff in H. rewrite H. reflexivity.
Qed.

Lemma kept_not_white (c : codeUnit) :
  keptInCell c = true -> isWhiteSpace c = false.
Proof.
  unfold keptInCell. intros H.
  apply orb_prop in H. destruct H as [H|H].
  - apply orb_prop in H. destruct H as [H|H].
    + apply digit_not_white, H.
    + apply N.eqb_eq in H. subst c. reflexivity.
  - apply N.eqb_eq in H. subst c. reflexivity.
Qed.

Lemma head_not_white (s : jsString) :
  forallb keptInCell s = true ->
  match s with [] => true | c :: _ => negb (isWhiteSpace c) end = true.
Proof.
  destruct s as [|c r]; simpl; [reflexivity|].
  intros H. apply andb_prop in H. destruct H as [H _].
  rewrite (kept_not_white c H). reflexivity.
Qed.

Lemma forallb_rev_kept (s : jsString) :
  forallb keptInCell s = true -> forallb keptInCell (rev s) = true.
Proof.
  rewrite !forallb_forall. intros H x Hx. apply H, in_rev, Hx.
Qed.

(** Text made of digits, [.] and [-] has no white space to trim. *)
Lemma trim_kept (s : jsString) :
  forallb keptInCell s = true -> trim s = s.
Proof.
  intros H. unfold trim, trimEnd.
  rewrite (trimStart_fixed s (head_not_white s H)).
  rewrite (trimStart_fixed (rev s) (head_not_white _ (forallb_rev_kept s H))).
  apply rev_involutive.
Qed.

Lemma stripCell_kept (value : jsString) :
  forallb keptInCell (stripCell value) = true.
Proof.
  apply forallb_forall. intros c Hc. apply filter_In in Hc. apply Hc.
Qed.

Lemma digits_kept (ds : jsString) :
  forallb isDigit ds = true -> forallb keptInCell ds = true.
Proof.
  rewrite !forallb_forall. intros H c Hc. unfold keptInCell.
  rewrite (H c Hc). reflexivity.
Qed.

(** In text of digits, [.] and [-] no prefix [0x], [0o] or [0b] occurs. *)
Lemma nonDecimalLiteral_kept (s : jsString) :
  forallb keptInCell s = true -> nonDecimalLiteral s = None.
Proof.
  destruct s as [|z [|p [|d r]]]; try reflexivity.
  intros H. cbn [forallb] in H.
  apply andb_prop in H. destruct H as [_ H].
  apply andb_prop in H. destruct H as [Hp _].
  assert (Hrange : (45 <= p <= 57)%N).
  { unfold keptInCell in Hp.
    apply orb_prop in Hp. destruct Hp as [Hp|Hp].
    - apply orb_prop in Hp. destruct Hp as [Hp|Hp].
      + apply isDigit_range in Hp. lia.
      + apply N.eqb_eq in Hp. lia.
    - apply N.eqb_eq in Hp. lia. }
  unfold nonDecimalLiteral. rewrite !(eqb_outside (c := p)) by lia.
  destruct (N.eqb z 48); reflexivity.
Qed.

Lemma toNumber_digits (ds : jsString) :
  ds <> [] -> forallb isDigit ds = true ->
  toNumber ds
  = ofDecimal false (digitsValue (List.map (fun c => (c - 48)%N) ds)) 0.
Proof.
  intros Hne Hds. pose proof (digits_kept ds Hds) as Hk.
  destruct ds as [|d r]; [congruence|].
  unfold toNumber. rewrite (trim_kept (d :: r) Hk).
  rewrite (nonDecimalLiteral_kept (d :: r) Hk).
  pose proof Hds as Hd. cbn [forallb] in Hd. apply andb_prop in Hd.
  destruct Hd as [Hd _]. pose proof (isDigit_range d Hd) as Hrange.
  assert (Hsign : takeSign (d :: r) = (false, d :: r)).
  { cbn [takeSign]. rewrite !eqb_outside by lia. reflexivity. }
  rewrite Hsign. unfold literalSplit.
  assert (Hinf : startsWith (lit "Infinity") (d :: r) = false).
  { change (lit "Infinity") with (73%N :: lit "nfinity").
    cbn [startsWith]. rewrite (N.eqb_sym 73 d), eqb_outside by lia.
    reflexivity. }
  rewrite Hinf.
  assert (Htd : takeDigits (d :: r)
                = (List.map (fun c => (c - 48)%N) (d :: r), [])).
  { rewrite <- (app_nil_r (d :: r)) at 1.
    apply (@takeDigits_app (d :: r) [] Hds eq_refl). }
  rewrite Htd. cbn [fractionPart List.map app].
  rewrite app_nil_r. reflexivity.
Qed.

Lemma cellNumber_finite (value : jsString) :
  isFinite (cellNumber value) = true.
Proof.
  unfold cellNumber. cbv zeta.
  destruct (isFinite (toNumber (stripCell value))) eqn:E;
    [exact E | reflexivity].
Qed.

(** X6: what [updatePeriod] stores for a cell is always finite; it is 0
    when the text has no digit, [.] or [-]; and when the characters that
    stay are digits only it is the integer they spell (0 if that is beyond
    the doubles), whatever else the text contained. *)
Theorem cellNumber_digits (value : jsString) :
  isFinite (cellNumber value) = true
  /\ (stripCell value = [] -> cellNumber value = zero)
  /\ (stripCell value <> [] ->
      forallb isDigit (stripCell value) = true ->
      cellNumber value
      = let n :=
          ofDecimal false
            (digitsValue (List.map (fun c => (c - 48)%N) (stripCell value))) 0
        in if isFinite n then n else zero).
Proof.
  split; [apply cellNumber_finite|]. unfold cellNumber. split.
  - intros ->. reflexivity.
  - intros Hne Hds. rewrite (toNumber_digits Hne Hds). reflexivity.
Qed.

End CellText.

Lemma cellNumber_digits_witness :
  Client.stripCell (lit "$1,234 USD") <> []
  /\ Client.cellNumber (lit "$1,234 USD") = ofZ 1234.
Proof.
  split; [discriminate|].
  destruct (cellNumber_digits (lit "$1,234 USD")) as [_ [_ H]].
  rewrite H; [reflexivity | discriminate | reflexivity].
Defined.

Section MalformedCells.

Import Client.

Lemma takeDigits_split (s : jsString) (ds : list N) (rest : jsString) :
  takeDigits s = (ds, rest) ->
  exists pre, s = pre ++ rest /\ forallb isDigit pre = true.
Proof.
  revert ds rest. induction s as [|c r IH]; intros ds rest; simpl.
  - intros H. injection H as _ <-. exists []. auto.
  - destruct (isDigit c) eqn:D.
    + destruct (takeDigits r) as [ds' rest'] eqn:E.
      intros H. injection H as _ <-.
      destruct (IH ds' rest' eq_refl) as [pre [-> Hpre]].
      exists (c :: pre). simpl. rewrite D, Hpre. auto.
    + intros H. injection H as _ <-. exists []. auto.
Qed.

Lemma digits_count (d : jsString) (c : codeUnit) :
  forallb isDigit d = true -> (c < 48 \/ 57 < c)%N ->
  count_occ N.eq_dec d c = 0%nat.
Proof.
  intros Hd Hc. induction d as [|x r IH]; [reflexivity|].
  cbn [forallb] in Hd. apply andb_prop in Hd. destruct Hd as [Hx Hr].
  apply isDigit_range in Hx.
  rewrite count_occ_cons_neq by lia. apply IH, Hr.
Qed.

Lemma exponentSplit_kept (s : jsString) (e : Z) :
  forallb keptInCell s = true -> exponentSplit s = (e, []) -> s = [].
Proof.
  destruct s as [|c r]; [reflexivity|].
  intros Hk. cbn [forallb] in Hk. apply andb_prop in Hk.
  destruct Hk as [Hc _].
  assert (Hrange : (c <= 57)%N).
  { unfold keptInCell in Hc.
    apply orb_prop in Hc. destruct Hc as [Hc|Hc].
    - apply orb_prop in Hc. destruct Hc as [Hc|Hc].
      + apply isDigit_range in Hc. lia.
      + apply N.eqb_eq in Hc. lia.
    - apply N.eqb_eq in Hc. lia. }
  unfold exponentSplit. rewrite !eqb_outside by lia.
  cbn [orb]. discriminate.
Qed.

Lemma forallb_kept_app (a b : jsString) :
  forallb keptInCell (a ++ b) = true -> forallb keptInCell b = true.
Proof. rewrite forallb_app. intros H. apply andb_prop in H. apply H. Qed.

(** A whole literal in text of digits, [.] and [-] has no [-] and at most
    one [.]. *)
Lemma literalSplit_kept (negative : bool) (u : jsString) (n : number) :
  forallb keptInCell u = true ->
  literalSplit negative u = Some (n, []) ->
  count_occ N.eq_dec u 45%N = 0%nat /\ (count_occ N.eq_dec u 46%N <= 1)%nat.
Proof.
  intros Hk. unfold literalSplit.
  destruct (startsWith (lit "Infinity") u) eqn:Hinf.
  { destruct u as [|c r]; [discriminate|].
    change (lit "Infinity") with (73%N :: lit "nfinity") in Hinf.
    cbn [startsWith] in Hinf. apply andb_prop in Hinf.
    destruct Hinf as [Hc _]. apply N.eqb_eq in Hc. subst c.
    discriminate Hk. }
  destruct (takeDigits u) as [ip r1] eqn:Htd.
  destruct (takeDigits_split u Htd) as [pre [-> Hpre]].
  pose proof (forallb_kept_app pre r1 Hk) as Hk1.
  destruct (fractionPart r1) as [fp r2] eqn:Hfp.
  destruct (ip ++ fp)%list as [|x xs]; [discriminate|].
  destruct (exponentSplit r2) as [e r3] eqn:Hex.
  intros H. injection H as _ ->.
  assert (Hr2 : forallb keptInCell r2 = true -> r2 = []).
  { intros K. apply (exponentSplit_kept r2 K Hex). }
  assert (P45 : count_occ N.eq_dec pre 45%N = 0%nat)
    by (apply digits_count; [exact Hpre | lia]).
  assert (P46 : count_occ N.eq_dec pre 46%N = 0%nat)
    by (apply digits_count; [exact Hpre | lia]).
  rewrite !count_occ_app. unfold jsString, codeUnit in *. rewrite P45, P46.
  destruct r1 as [|c r]; [split; simpl; lia|].
  unfold fractionPart in Hfp. destruct (N.eqb c 46) eqn:Hdot.
  - apply N.eqb_eq in Hdot. subst c.
    destruct (takeDigits_split r Hfp) as [pre' [-> Hpre']].
    cbn [forallb] in Hk1. apply andb_prop in Hk1. destruct Hk1 as [_ Hk1].
    rewrite (Hr2 (forallb_kept_app pre' r2 Hk1)), app_nil_r.
    rewrite count_occ_cons_neq by lia. rewrite count_occ_cons_eq by reflexivity.
    assert (Q45 : count_occ N.eq_dec pre' 45%N = 0%nat)
      by (apply digits_count; [exact Hpre' | lia]).
    assert (Q46 : count_occ N.eq_dec pre' 46%N = 0%nat)
      by (apply digits_count; [exact Hpre' | lia]).
    rewrite Q45, Q46. split; lia.
  - injection Hfp as _ <-. specialize (Hr2 Hk1). discriminate.
Qed.

Lemma takeSign_cases (t u : jsString) (negative : bool) :
  takeSign t = (negative, u) ->
  t = u \/ exists c, (c = 45 \/ c = 43)%N /\ t = c :: u.
Proof.
  destruct t as [|c r]; simpl.
  - intros H. injection H as _ <-. auto.
  - destruct (N.eqb c 45) eqn:E45.
    + intros H. injection H as _ <-. apply N.eqb_eq in E45.
      right. exists c. auto.
    + destruct (N.eqb c 43) eqn:E43.
      * intros H. injection H as _ <-. apply N.eqb_eq in E43.
        right. exists c. auto.
      * intros H. injection H as _ <-. auto.
Qed.

(** Text of digits, [.] and [-] with a [-] inside or two [.] is no number. *)
Lemma toNumber_malformed (t : jsString) :
  forallb keptInCell t = true ->
  (2 <= count_occ N.eq_dec t 46%N)%nat
  \/ (1 <= count_occ N.eq_dec (tl t) 45%N)%nat ->
  toNumber t = NaN.
Proof.
  intros Hk Hbad.
  destruct t as [|c0 r0] eqn:Et; [simpl in Hbad; lia|]. rewrite <- Et in *.
  unfold toNumber. rewrite (trim_kept t Hk).
  rewrite Et at 1. rewrite <- Et. rewrite (nonDecimalLiteral_kept t Hk).
  destruct (takeSign t) as [negative u] eqn:Hsign.
  destruct (literalSplit negative u) as [[n [|x rest]]|] eqn:Hsplit;
    try reflexivity.
  exfalso. pose proof (takeSign_cases t Hsign) as Hcases.
  assert (Hku : forallb keptInCell u = true).
  { destruct Hcases as [<- | [c [_ E]]]; [exact Hk|].
    rewrite E in Hk. cbn [forallb] in Hk. apply andb_prop in Hk. apply Hk. }
  destruct (literalSplit_kept negative u Hku Hsplit) as [Hminus Hdots].
  unfold jsString, codeUnit in *.
  destruct Hcases as [<- | [c [Hc E]]].
  - destruct Hbad as [Hbad|Hbad]; [lia|].
    rewrite Et in Hminus, Hbad. cbn [tl] in Hbad.
    destruct (N.eq_dec c0 45) as [->|Hne].
    + rewrite count_occ_cons_eq in Hminus by reflexivity. lia.
    + rewrite count_occ_cons_neq in Hminus by exact Hne. lia.
  - rewrite E in Hbad. cbn [tl] in Hbad.
    destruct Hbad as [Hbad|Hbad]; [|lia].
    rewrite count_occ_cons_neq in Hbad by (destruct Hc; lia). lia.
Qed.

(** X7: a cell whose kept characters have a [-] after the first position,
    or two [.], is stored as 0, as [1-2] and [1.2.3] are. *)
Theorem cellNumber_malformed (value : jsString) :
  (exists a b, a <> [] /\ stripCell value = a ++ 45%N :: b)
  \/ (exists a b c, stripCell value = a ++ 46%N :: b ++ 46%N :: c) ->
  cellNumber value = zero.
Proof.
  intros H. unfold cellNumber.
  rewrite (toNumber_malformed (stripCell value) (stripCell_kept value));
    [reflexivity|].
  destruct H as [[a [b [Ha ->]]] | [a [b [c ->]]]].
  - right. destruct a as [|x a']; [congruence|]. cbn [app tl].
    rewrite count_occ_app, count_occ_cons_eq by reflexivity. lia.
  - left. rewrite count_occ_app, count_occ_cons_eq by reflexivity.
    rewrite count_occ_app, count_occ_cons_eq by reflexivity. lia.
Qed.

End MalformedCells.

Lemma cellNumber_malformed_witness :
  Client.cellNumber (lit "1-2") = zero
  /\ Client.cellNumber (lit "1.2.3") = zero.
Proof.
  split.
  - apply cellNumber_malformed. left.
    exists (lit "1"), (lit "2"). split; [discriminate | reflexivity].
  - apply cellNumber_malformed. right.
    exists (lit "1"), (lit "2"), (lit "3"). reflexivity.
Defined.

(** * The analyzer page: reducers and the request *)

Section Reducers.

Import Client.

Lemma replaceAt_length (A : Type) (index : nat) (x : A) (l : list A) :
  List.length (replaceAt index x l) = List.length l.
Proof.
  revert index. induction l as [|y r IH]; intros [|i]; simpl; auto.
Qed.

Lemma replaceAt_same (A : Type) (index : nat) (x : A) (l : list A) :
  (index < List.length l)%nat ->
  nth_error (replaceAt index x l) index = Some x.
Proof.
  revert index. induction l as [|y r IH]; intros [|i]; simpl; try lia.
  - reflexivity.
  - intros H. apply IH. lia.
Qed.

Lemma replaceAt_other (A : Type) (index j : nat) (x : A) (l : list A) :
  j <> index ->
  nth_error (replaceAt index x l) j = nth_error l j.
Proof.
  revert index j. induction l as [|y r IH]; intros [|i] [|j] H; simpl;
    try reflexivity; try congruence.
  apply IH. congruence.
Qed.

Lemma replaceAt_forallb (A : Type) (f : A -> bool) (index : nat) (x : A)
  (l : list A) :
  forallb f l = true -> f x = true -> forallb f (replaceAt index x l) = true.
Proof.
  revert index. induction l as [|y r IH]; intros [|i] Hl Hx; simpl in *;
    try reflexivity.
  - apply andb_prop in Hl. destruct Hl as [_ Hr]. rewrite Hx, Hr. reflexivity.
  - apply andb_prop in Hl. destruct Hl as [Hy Hr]. rewrite Hy.
    apply IH; assumption.
Qed.

Lemma periodFieldEqb_eq (a b : PeriodField) :
  periodFieldEqb a b = true <-> a = b.
Proof. destruct a, b; simpl; split; congruence. Qed.

Lemma withPeriodField_field (key k : PeriodField) (v : number)
  (p : FinancialPeriod number) :
  periodField k (withPeriodField key v p)
  = if periodFieldEqb k key then v else periodField k p.
Proof. destruct k; reflexivity. Qed.

(** X8: for the index of a row, [updatePeriod] has a next state with the
    same number of periods and the same assumptions; the row keeps its
    label and every field but the one named, which becomes the number of
    the cell text; every other row is as it was. *)
Theorem updatePeriod_in_range (index : nat) (key : PeriodField)
  (value : jsString) (prev : AnalyzerState) :
  (index < List.length (data prev))%nat ->
  exists period next,
    nth_error (data prev) index = Some period
    /\ updatePeriod index key value prev = Some next
    /\ List.length (data next) = List.length (data prev)
    /\ assumptions next = assumptions prev
    /\ (forall j, j <> index ->
                  nth_error (data next) j = nth_error (data prev) j)
    /\ exists updated,
         nth_error (data next) index = Some updated
         /\ label updated = label period
         /\ periodField key updated = cellNumber value
         /\ forall k, k <> key -> periodField k updated = periodField k period.
Proof.
  intros H. unfold updatePeriod.
  destruct (nth_error (data prev) index) as [period|] eqn:E.
  - exists period. eexists. split; [reflexivity|]. split; [reflexivity|].
    cbn [data assumptions].
    split; [apply replaceAt_length|]. split; [reflexivity|].
    split; [intros j Hj; apply replaceAt_other, Hj|].
    eexists. split; [apply replaceAt_same, H|].
    split; [reflexivity|]. split.
    + rewrite withPeriodField_field.
      rewrite (proj2 (periodFieldEqb_eq key key) eq_refl). reflexivity.
    + intros k Hk. rewrite withPeriodField_field.
      destruct (periodFieldEqb k key) eqn:Q; [|reflexivity].
      apply periodFieldEqb_eq in Q. congruence.
  - apply nth_error_None in E. lia.
Qed.

Lemma finite_withPeriodField (key : PeriodField) (v : number)
  (p : FinancialPeriod number) :
  isFinite v = true ->
  forallb (fun f => isFinite (periodField f p))
    [Revenue; Cogs; OperatingExpenses; NetIncome;
     Assets; Liabilities; Cash; FreeCashFlow] = true ->
  forallb (fun f => isFinite (periodField f (withPeriodField key v p)))
    [Revenue; Cogs; OperatingExpenses; NetIncome;
     Assets; Liabilities; Cash; FreeCashFlow] = true.
Proof.
  intros Hv Hp. rewrite forallb_forall in *. intros f Hf.
  rewrite withPeriodField_field.
  destruct (periodFieldEqb f key); [exact Hv | apply Hp, Hf].
Qed.

(** X9: the reducers keep every numeric field of every period finite:
    [updatePeriod] stores finite numbers only, [updateLabel] and
    [updateAssumption] touch no such field, and [addPeriod] appends
    zeros. *)
Theorem reducers_keep_fields_finite (prev : AnalyzerState) :
  finiteFields prev = true ->
  (forall index key value next,
      updatePeriod index key value prev = Some next ->
      finiteFields next = true)
  /\ (forall index value next,
        updateLabel index value prev = Some next ->
        finiteFields next = true)
  /\ (forall key value, finiteFields (updateAssumption key value prev) = true)
  /\ finiteFields (addPeriod prev) = true.
Proof.
  unfold finiteFields. intros H. split; [|split; [|split]].
  - intros index key value next. unfold updatePeriod.
    destruct (nth_error (data prev) index) as [period|] eqn:E;
      [|discriminate].
    intros N. injection N as <-. cbn [data].
    apply replaceAt_forallb; [exact H|].
    apply finite_withPeriodField.
    + apply cellNumber_finite.
    + rewrite forallb_forall in H. apply H. apply (nth_error_In _ _ E).
  - intros index value next. unfold updateLabel.
    destruct (nth_error (data prev) index) as [period|] eqn:E;
      [|discriminate].
    intros N. injection N as <-. cbn [data].
    apply replaceAt_forallb; [exact H|].
    rewrite forallb_forall in H. apply (H period (nth_error_In _ _ E)).
  - intros key value. exact H.
  - cbn [addPeriod data]. rewrite forallb_app, H. reflexivity.
Qed.

End Reducers.

Lemma updatePeriod_in_range_witness :
  (1 < List.length (Client.data ClientSamples.twoYears))%nat
  /\ option_map
       (fun next => List.map (fun p => revenue p) (Client.data next))
       (Client.updatePeriod 1 Revenue (lit "$1,234 USD")
          ClientSamples.twoYears)
     = Some [ofZ 100; ofZ 1234].
Proof.
  assert (H : (1 < List.length (Client.data ClientSamples.twoYears))%nat)
    by (simpl; lia).
  split; [exact H|].
  destruct (updatePeriod_in_range Revenue (lit "$1,234 USD")
              ClientSamples.twoYears H)
    as [period [next [_ [E _]]]].
  rewrite E. injection E as <-. reflexivity.
Defined.

Lemma reducers_keep_fields_finite_witness :
  Client.finiteFields ClientSamples.twoYears = true
  /\ Client.finiteFields (Client.addPeriod ClientSamples.twoYears) = true.
Proof.
  assert (H : Client.finiteFields ClientSamples.twoYears = true)
    by reflexivity.
  split; [exact H|].
  exact (proj2 (proj2 (proj2
           (reducers_keep_fields_finite ClientSamples.twoYears H)))).
Defined.

Section RequestRoundTrip.

Import Client.

Lemma sanitizeNumber_jsonNumber (n : number) :
  sanitizeNumber (jsonNumber n) = numberAsServed n.
Proof. destruct n; reflexivity. Qed.

Lemma periodOfRow_jsonPeriod (p : FinancialPeriod number) :
  periodOfRow (jsonPeriod p) = periodAsServed p.
Proof.
  unfold periodOfRow, periodAsServed.
  change (member (jsonPeriod p) (lit "label")) with (JString (label p)).
  change (member (jsonPeriod p) (lit "revenue"))
    with (jsonNumber (revenue p)).
  change (member (jsonPeriod p) (lit "cogs")) with (jsonNumber (cogs p)).
  change (member (jsonPeriod p) (lit "operatingExpenses"))
    with (jsonNumber (operatingExpenses p)).
  change (member (jsonPeriod p) (lit "netIncome"))
    with (jsonNumber (netIncome p)).
  change (member (jsonPeriod p) (lit "assets")) with (jsonNumber (assets p)).
  change (member (jsonPeriod p) (lit "liabilities"))
    with (jsonNumber (liabilities p)).
  change (member (jsonPeriod p) (lit "cash")) with (jsonNumber (cash p)).
  change (member (jsonPeriod p) (lit "freeCashFlow"))
    with (jsonNumber (freeCashFlow p)).
  rewrite !sanitizeNumber_jsonNumber, trim_length_test.
  destruct (forallb isWhiteSpace (label p)); reflexivity.
Qed.

Lemma normalizePeriods_jsonPeriods (periods : list (FinancialPeriod number)) :
  normalizePeriods (JArray (List.map jsonPeriod periods))
  = List.map periodAsServed periods.
Proof.
  unfold normalizePeriods. rewrite filterBoolean_map_normalizeRow.
  induction periods as [|p r IH]; [reflexivity|].
  cbn [List.map List.filter].
  change (isRowObject (jsonPeriod p)) with true. cbn [List.map].
  rewrite periodOfRow_jsonPeriod, IH. reflexivity.
Qed.

Lemma requestBody_periods (state : AnalyzerState) :
  normalizePeriods (member (requestBody state) (lit "periods"))
  = List.map periodAsServed (data state).
Proof.
  change (member (requestBody state) (lit "periods"))
    with (JArray (List.map jsonPeriod (data state))).
  apply normalizePeriods_jsonPeriods.
Qed.

Lemma requestBody_assumptions (state : AnalyzerState) :
  normalizeAssumptions (member (requestBody state) (lit "assumptions"))
  = assumptionsAsServed (assumptions state).
Proof.
  change (member (requestBody state) (lit "assumptions"))
    with (jsonAssumptions (assumptions state)).
  rewrite normalizeAssumptions_object by reflexivity.
  unfold assumptionsAsServed.
  change (member (jsonAssumptions (assumptions state)) (lit "revenueGrowth"))
    with (jsonNumber (revenueGrowth (assumptions state))).
  change (member (jsonAssumptions (assumptions state)) (lit "marginShift"))
    with (jsonNumber (marginShift (assumptions state))).
  change (member (jsonAssumptions (assumptions state)) (lit "efficiencyGain"))
    with (jsonNumber (efficiencyGain (assumptions state))).
  change (member (jsonAssumptions (assumptions state)) (lit "cashConversion"))
    with (jsonNumber (cashConversion (assumptions state))).
  rewrite !sanitizeNumber_jsonNumber. reflexivity.
Qed.

Lemma plainNumber_served (n : number) :
  plainNumber n = true -> numberAsServed n = n.
Proof.
  destruct n as [[|] | | | ]; simpl; intros H; try discriminate; reflexivity.
Qed.

(** X10: the route reads the request of the page row for row: no period
    is dropped or reordered, a blank label becomes ["Period"], a field that
    is not finite becomes 0 and a negative zero loses its sign; a period
    with a label that is not blank and finite fields without negative zero
    arrives exactly as the page holds it.  The assumptions are read the
    same way. *)
Theorem request_round_trip (state : AnalyzerState) :
  normalizePeriods (member (requestBody state) (lit "periods"))
  = List.map periodAsServed (data state)
  /\ normalizeAssumptions (member (requestBody state) (lit "assumptions"))
     = assumptionsAsServed (assumptions state)
  /\ (forall p, plainPeriod p = true -> periodAsServed p = p).
Proof.
  split; [apply requestBody_periods|].
  split; [apply requestBody_assumptions|].
  intros [l r c o n a li ca f]. unfold plainPeriod, periodAsServed.
  cbn [label revenue cogs operatingExpenses netIncome assets liabilities
       cash freeCashFlow periodField forallb].
  intros H. repeat (apply andb_prop in H; destruct H as [? H]).
  repeat match goal with
         | K : negb _ = true |- _ => apply negb_true_iff in K; rewrite K
         | K : plainNumber _ = true |- _ =>
             rewrite (plainNumber_served _ K); clear K
         end.
  reflexivity.
Qed.

Lemma revenueSeries_label_served (p : FinancialPeriod number) :
  match label p with
  | [] => true
  | l => negb (forallb isWhiteSpace l)
  end = true ->
  match label p with [] => lit "Period" | l => l end
  = label (periodAsServed p).
Proof.
  unfold periodAsServed. cbn [label].
  destruct (label p) as [|c r]; [reflexivity|].
  intros H. apply negb_true_iff in H. rewrite H. reflexivity.
Qed.

(** X11: the chart series has one point per period, in order, and no point
    has an empty label; when no label is blank without being empty, the
    labels of the chart are the labels the route gives the periods of the
    request. *)
Theorem revenueSeries_labels (state : AnalyzerState) :
  List.length (revenueSeries state) = List.length (data state)
  /\ (forall point, In point (revenueSeries state) -> pointLabel point <> [])
  /\ (forallb
        (fun p => match label p with
                  | [] => true
                  | l => negb (forallb isWhiteSpace l)
                  end) (data state) = true ->
      List.map pointLabel (revenueSeries state)
      = List.map (fun p => label p)
          (normalizePeriods (member (requestBody state) (lit "periods")))).
Proof.
  unfold revenueSeries. split; [apply length_map|]. split.
  - intros point H. apply in_map_iff in H. destruct H as [p [<- _]].
    cbn [pointLabel]. destruct (label p); discriminate.
  - intros H. rewrite requestBody_periods, !map_map. cbn [pointLabel].
    apply map_ext_in. intros p Hp.
    rewrite forallb_forall in H.
    apply revenueSeries_label_served, (H p Hp).
Qed.

End RequestRoundTrip.

Section PageAndRoute.

Import Handler Client.

Context {AnalysisResult : Type}.
Variable runAnalysis :
  list (FinancialPeriod number) -> ScenarioAssumptions number ->
  Outcome AnalysisResult.

(** The [try] block on the request of the page. *)
Lemma POST_try_requestBody (state : AnalyzerState) (w : World) :
  POST_try runAnalysis {| json := Returned (requestBody state) |} w
  = let periods := List.map periodAsServed (data state) in
    let assumptions := assumptionsAsServed (Client.assumptions state) in
    match periods with
    | [] =>
        (Returned {| status := 400;
                     body := ErrorBody "No financial periods supplied." |}, w)
    | _ :: _ =>
        let w' := {| engineCalls := engineCalls w ++ [(periods, assumptions)];
                     consoleErrors := consoleErrors w |} in
        match runAnalysis periods assumptions with
        | Returned analysis =>
            (Returned {| status := 200; body := DataBody analysis |}, w')
        | Threw e => (Threw e, w')
        end
    end.
Proof.
  rewrite (@POST_try_parsed _ runAnalysis
             {| json := Returned (requestBody state) |} (requestBody state) w
             eq_refl ltac:(discriminate) ltac:(discriminate)).
  cbv zeta. rewrite requestBody_periods, requestBody_assumptions.
  reflexivity.
Qed.


(** X13: after [addPeriod] the request is never turned away as empty: the
    route answers 200 or 500, having called the engine once with the
    periods as served and the new row as a placeholder period at the
    end. *)
Theorem addPeriod_request_is_analysed (state : AnalyzerState) (w : World) :
  exists response w',
    POST runAnalysis {| json := Returned (requestBody (addPeriod state)) |} w
    = (Returned response, w')
    /\ (status response = 200 \/ status response = 500)
    /\ engineCalls w'
       = engineCalls w
         ++ [((List.map periodAsServed (data state) ++ [placeholderPeriod])%list,
              assumptionsAsServed (Client.assumptions state))].
Proof.
  pose proof (POST_try_requestBody (addPeriod state) w) as T. cbv zeta in T.
  cbn [addPeriod data Client.assumptions] in T.
  rewrite map_app in T. cbn [List.map] in T.
  change (periodAsServed emptyPeriod) with placeholderPeriod in T.
  destruct (List.map periodAsServed (data state) ++ [placeholderPeriod])%list
    as [|p ps] eqn:E.
  { destruct (List.map periodAsServed (data state)); discriminate. }
  destruct (runAnalysis (p :: ps)
              (assumptionsAsServed (Client.assumptions state)))
    as [analysis|e].
  - eexists _, _. split; [apply (POST_pass _ _ _ T)|].
    split; [left; reflexivity | reflexivity].
  - eexists _, _. split; [apply (POST_catch _ _ _ T)|].
    split; [right; reflexivity | reflexivity].
Qed.

End PageAndRoute.

Lemma request_round_trip_witness :
  Client.plainPeriod ClientSamples.fy2024 = true
  /\ normalizePeriods
       (member (Client.requestBody ClientSamples.twoYears) (lit "periods"))
     = [ClientSamples.fy2023; ClientSamples.fy2024].
Proof.
  split; [reflexivity|].
  destruct (request_round_trip ClientSamples.twoYears) as [E [_ P]].
  rewrite E. cbn [List.map Client.data ClientSamples.twoYears].
  rewrite (P ClientSamples.fy2023 eq_refl), (P ClientSamples.fy2024 eq_refl).
  reflexivity.
Defined.

Lemma revenueSeries_labels_witness :
  List.map Client.pointLabel (Client.revenueSeries ClientSamples.twoYears)
  = List.map (fun p => label p)
      (normalizePeriods
         (member (Client.requestBody ClientSamples.twoYears) (lit "periods"))).
Proof.
  exact (proj2 (proj2 (revenueSeries_labels ClientSamples.twoYears)) eq_refl).
Defined.

